(** * telegram.ext._jobqueue: JobQueue and Job

    A shallow embedding of [src/telegram/ext/_jobqueue.py].  Python objects
    live in an explicit world (object store, scheduler, clock reads, the log
    of calls made to host code); a method is a function from the world to an
    outcome (a value or a raised exception) and the world it leaves behind. *)

From stdpp Require Import base numbers list strings gmap pretty.

Local Open Scope Z_scope.

(* ================================================================== *)
(** ** Python outcomes: values and raised exceptions                   *)
(* ================================================================== *)

(** Exception classes.  The first group derives from [Exception], with
    [OtherException] for every class not named here that does; the second
    derives from [BaseException] only, which an [except Exception] clause
    does not match: the three of the language, [asyncio.CancelledError]
    (since Python 3.8), and [OtherBaseException] for every other such
    class. *)
Inductive exn_class : Type :=
| ValueError
| RuntimeError
| TypeError
| AttributeError
| OverflowError
| JobLookupError
| OtherException (cls : string)
| KeyboardInterrupt
| SystemExit
| GeneratorExit
| CancelledError
| OtherBaseException (cls : string).

Record exn : Type := Exn { exn_cls : exn_class; exn_msg : string }.

(** [isinstance(exc, Exception)]. *)
Definition isinstance_Exception (e : exn) : bool :=
  match exn_cls e with
  | KeyboardInterrupt | SystemExit | GeneratorExit | CancelledError
  | OtherBaseException _ => false
  | ValueError | RuntimeError | TypeError | AttributeError | OverflowError
  | JobLookupError | OtherException _ => true
  end.

Inductive result (A : Type) : Type :=
| Ok (a : A)
| Raise (e : exn).
Arguments Ok {A} a.
Arguments Raise {A} e.

(** A computation over a state [S]: the state survives a raise, as the
    mutations a Python call made before raising do. *)
Definition M (S A : Type) : Type := S -> result A * S.

Definition ret {S A} (a : A) : M S A := fun s => (Ok a, s).
Definition raise {S A} (e : exn) : M S A := fun s => (Raise e, s).
Definition bind {S A B} (m : M S A) (k : A -> M S B) : M S B :=
  fun s => match m s with
           | (Ok a, s') => k a s'
           | (Raise e, s') => (Raise e, s')
           end.

Declare Scope py_scope.
Delimit Scope py_scope with py.
Notation "'let!' x ':=' m 'in' k" := (bind m (fun x => k))
  (at level 10, x name, m at level 100, k at level 200) : py_scope.
Local Open Scope py_scope.

(** [try: body  except Exception as exc: handler(exc)]: only instances of
    [Exception] reach the handler. *)
Definition try_except_Exception {S A} (body : M S A) (handler : exn -> M S A)
  : M S A :=
  fun s => match body s with
           | (Ok a, s') => (Ok a, s')
           | (Raise e, s') =>
               if isinstance_Exception e then handler e s' else (Raise e, s')
           end.

(** [try: body  finally: final]: [final] runs on every exit of [body]; what
    [final] raises replaces the pending outcome, otherwise the pending
    outcome stands. *)
Definition try_finally {S A} (body : M S A) (final : M S unit) : M S A :=
  fun s => match body s with
           | (r, s') =>
               match final s' with
               | (Ok _, s'') => (r, s'')
               | (Raise e, s'') => (Raise e, s'')
               end
           end.

(* ================================================================== *)
(** ** datetime, as the module uses it                                 *)
(* ================================================================== *)

(** [datetime.timedelta]: an exact count of microseconds. *)
Definition timedelta : Type := Z.

Definition SECOND : Z := 1000000.
Definition DAY : Z := 86400 * SECOND.

(** [datetime.timedelta(days=n)]. *)
Definition timedelta_days (n : Z) : timedelta := n * DAY.

(** The limits of the library: a [timedelta] spans fewer than a thousand
    million days either way, its day count passing through a C [int] on
    construction; a [datetime] lies in the years 1 to 9999, that is within
    the first [MAXORDINAL] days counted from 0001-01-01. *)
Definition MAX_DELTA_DAYS : Z := 999999999.
Definition C_INT_MIN : Z := - 2 ^ 31.
Definition C_INT_MAX : Z := 2 ^ 31 - 1.
Definition MAXORDINAL : Z := 3652059.

(** What the library can represent: a count of microseconds as a
    [timedelta], a wall-clock reading as a [datetime]. *)
Definition timedelta_fits (us : Z) : Prop :=
  - MAX_DELTA_DAYS * DAY <= us < (MAX_DELTA_DAYS + 1) * DAY.

Definition datetime_fits (w : Z) : Prop :=
  0 <= w < MAXORDINAL * DAY.

(** The construction of a [timedelta] from a count of microseconds, as
    every constructor call ends: [OverflowError] beyond the limits. *)
Definition new_timedelta (us : Z) : result timedelta :=
  let days := us `div` DAY in
  if (days <? C_INT_MIN) || (C_INT_MAX <? days)
  then Raise (Exn OverflowError "Python int too large to convert to C int")
  else if (days <? - MAX_DELTA_DAYS) || (MAX_DELTA_DAYS <? days)
  then Raise (Exn OverflowError
                ("days=" +:+ pretty days +:+
                 "; must have magnitude <= 999999999"))
  else Ok us.

(** A [tzinfo] instance, as pytz (the timezone library of the scheduler)
    and [datetime.timezone] have them: the instance reports one
    [utcoffset], and carries the rules of its zone, [fromutc_offset] for the
    offset in force at a UTC instant (what [datetime.now(tz)] applies) and
    [localize_offset] for the offset chosen for a wall-clock reading (what
    [tz.localize] applies).  A reading taken or localized in a zone carries
    the instance of the zone with the offset so chosen.  All offsets are in
    microseconds. *)
Record tzinfo : Type := Tz {
  tzname : string;
  utcoffset : Z;
  fromutc_offset : Z -> Z;
  localize_offset : Z -> Z
}.

Definition with_offset (tz : tzinfo) (off : Z) : tzinfo :=
  {| tzname := tzname tz; utcoffset := off;
     fromutc_offset := fromutc_offset tz;
     localize_offset := localize_offset tz |}.

(** [pytz.utc]. *)
Definition pytz_utc : tzinfo :=
  {| tzname := "UTC"; utcoffset := 0;
     fromutc_offset := fun _ => 0; localize_offset := fun _ => 0 |}.

(** [datetime.datetime]: the wall-clock reading (date and time-of-day
    fields together) in microseconds since 0001-01-01 00:00:00, and the
    attached [tzinfo]; [None] makes the value naive. *)
Record datetime : Type := Datetime {
  wall : Z;
  dt_tzinfo : option tzinfo
}.

(** [datetime.time]: a time of day, optionally with a [tzinfo]. *)
Record time : Type := Time {
  hour : Z;
  minute : Z;
  second : Z;
  microsecond : Z;
  t_tzinfo : option tzinfo
}.

Definition time_us (t : time) : Z :=
  ((hour t * 60 + minute t) * 60 + second t) * SECOND + microsecond t.

(** [dt.date()], as the number of days since 0001-01-01, and the time of
    day of [dt]. *)
Definition date (dt : datetime) : Z := wall dt `div` DAY.
Definition timeofday (dt : datetime) : Z := wall dt `mod` DAY.

(** [datetime.datetime.combine(d, t)]. *)
Definition combine (d : Z) (t : time) : datetime :=
  {| wall := d * DAY + time_us t; dt_tzinfo := t_tzinfo t |}.

(** [tz.localize(dt)] of pytz on a naive [dt]. *)
Definition localize (tz : tzinfo) (dt : datetime) : datetime :=
  {| wall := wall dt;
     dt_tzinfo := Some (with_offset tz (localize_offset tz (wall dt))) |}.

(** [dt + delta]: wall-clock arithmetic, the [tzinfo] is kept;
    [OverflowError] when the sum leaves the years 1 to 9999. *)
Definition date_out_of_range : exn :=
  Exn OverflowError "date value out of range".

Definition dt_add (dt : datetime) (d : timedelta) : result datetime :=
  let w := wall dt + d in
  if (0 <=? w) && (w <? MAXORDINAL * DAY)
  then Ok {| wall := w; dt_tzinfo := dt_tzinfo dt |}
  else Raise date_out_of_range.

(** The reading of the UTC instant [u] in [tz]: what [datetime.now(tz)]
    builds from the clock. *)
Definition at_utc (tz : tzinfo) (u : Z) : datetime :=
  let off := fromutc_offset tz u in
  {| wall := u + off; dt_tzinfo := Some (with_offset tz off) |}.

(** The UTC instant an aware reading denotes. *)
Definition to_utc (w : Z) (tz : tzinfo) : Z := w - utcoffset tz.

Definition utc_instant (dt : datetime) : option Z :=
  match dt_tzinfo dt with
  | Some tz => Some (to_utc (wall dt) tz)
  | None => None
  end.

(** The field ranges that [datetime.time] enforces on construction. *)
Definition valid_time (t : time) : Prop :=
  0 <= hour t < 24 /\ 0 <= minute t < 60 /\ 0 <= second t < 60 /\
  0 <= microsecond t < SECOND.

Definition cannot_compare : exn :=
  Exn TypeError "can't compare offset-naive and offset-aware datetimes".

(** What the comparisons of the library decide, said on the fields: [a] is
    before [b], or at the same point as [b], as instants when both are
    aware and as wall-clock readings when both are naive. *)
Definition before (a b : datetime) : Prop :=
  match dt_tzinfo a, dt_tzinfo b with
  | Some ta, Some tb => wall a - utcoffset ta < wall b - utcoffset tb
  | None, None => wall a < wall b
  | _, _ => False
  end.


(** [a < b] and [a <= b] on datetimes: instants when both are aware,
    wall-clock readings when both are naive, [TypeError] otherwise. *)
Definition dt_compare (a b : datetime) : result comparison :=
  match dt_tzinfo a, dt_tzinfo b with
  | Some ta, Some tb => Ok (to_utc (wall a) ta ?= to_utc (wall b) tb)
  | None, None => Ok (wall a ?= wall b)
  | _, _ => Raise cannot_compare
  end.

Definition dt_lt (a b : datetime) : result bool :=
  match dt_compare a b with
  | Ok Lt => Ok true
  | Ok _ => Ok false
  | Raise e => Raise e
  end.

Definition dt_le (a b : datetime) : result bool :=
  match dt_compare a b with
  | Ok Gt => Ok false
  | Ok _ => Ok true
  | Raise e => Raise e
  end.

(* ================================================================== *)
(** ** What the module takes from outside                              *)
(* ================================================================== *)

(** Types and functions of the surroundings that the module only passes
    along: the state that host code (callbacks and the hooks of the
    dispatcher) reads and writes, opaque Python values, the
    [CallbackContext] objects of the host, Python floats, and the clock, as
    the UTC microsecond count (since 0001-01-01) that the k-th read
    returns.  Of a float the module makes a [timedelta]: [float_us] is the
    count of microseconds that [timedelta(seconds=x)] makes of [x] before
    its range check, with the rounding of the library, or the error it
    raises when [x] is not finite ([ValueError] for a NaN, [OverflowError]
    for an infinity).  [total_seconds] is [td.total_seconds()]. *)
Class Externals : Type := {
  HostState : Type;
  PyObj : Type;
  CallbackContext : Type;
  pyfloat : Type;
  float_us : pyfloat -> result Z;
  total_seconds : timedelta -> pyfloat;
  utc_clock : nat -> Z
}.

Section Objects.
Context `{Externals}.

(** An [int] or a [float]. *)
Inductive number : Type :=
| PyInt (n : Z)
| PyFloat (x : pyfloat).

(** [datetime.timedelta(seconds=n)]. *)
Definition timedelta_seconds (n : number) : result timedelta :=
  match n with
  | PyInt k => new_timedelta (k * SECOND)
  | PyFloat x =>
      match float_us x with
      | Ok us => new_timedelta us
      | Raise e => Raise e
      end
  end.

(** The values a time argument can take:
    [Union[float, int, timedelta, datetime, time, None]]. *)
Inductive time_input : Type :=
| TNone
| TNumber (n : number)
| TTimedelta (d : timedelta)
| TTime (t : time)
| TDatetime (dt : datetime).

(** Objects are referred to by their address in the store. *)
Definition addr : Type := nat.

(** [apscheduler.job.Job]: the handle of a scheduler entry; [func] is the
    [Job] object the entry invokes. *)
Record APSJob : Type := {
  aps_id : string;
  func : addr
}.

(** A job callback: what reading its [__name__] gives, the name or, for a
    callable without one (a [functools.partial], say), the
    [AttributeError]; and what calling it does to the state of host code.
    What a callback does to the queue or to a job is a call of one of the
    methods below. *)
Record Callback : Type := {
  __name__ : result string;
  __call__ : CallbackContext -> M HostState unit
}.

(** [class Job], with its slots. *)
Record Job : Type := {
  callback : Callback;
  context : PyObj;
  name : string;
  _removed : bool;
  _enabled : bool;
  job : option APSJob
}.

(** [telegram.ext.Dispatcher], through what the module uses of it:
    [context_types.context.from_job(job, dispatcher)],
    [dispatch_error(None, exc, job=job)], [update_persistence(None)], and
    [bot.defaults.tzinfo], present when [bot] is an [ExtBot] with defaults. *)
Record Dispatcher : Type := {
  from_job : addr -> M HostState CallbackContext;
  dispatch_error : exn -> addr -> M HostState unit;
  update_persistence : M HostState unit;
  bot_defaults_tzinfo : option (option tzinfo)
}.

Definition JSONDict : Type := list (string * PyObj).

Inductive cron_day : Type :=
| DayLast
| DayNumber (n : Z).

(** The trigger arguments of a [scheduler.add_job] call. *)
Inductive trigger : Type :=
| TriggerDate (run_date : datetime) (timezone : tzinfo)
| TriggerInterval (start_date end_date : option datetime) (seconds : number)
| TriggerCronDay (day : cron_day) (hour minute second : Z) (timezone : tzinfo)
| TriggerCronWeek (day_of_week : string) (hour minute second : Z)
    (timezone : tzinfo)
| TriggerCustom.

Record add_job_request : Type := {
  req_func : addr;
  req_name : string;
  req_trigger : trigger;
  req_args : Dispatcher;
  req_kwargs : JSONDict
}.

(** The Timer Engine ([AsyncIOScheduler]), through the primitives the module
    calls.  Each may raise and may change the scheduler. *)
Class TimerEngine (E : Type) : Type := {
  AsyncIOScheduler : tzinfo -> E;
  sched_timezone : E -> tzinfo;
  sched_running : E -> bool;
  sched_configure : tzinfo -> M E unit;
  sched_start : M E unit;
  sched_shutdown : bool -> M E unit;
  sched_add_job : add_job_request -> M E APSJob;
  sched_get_jobs : M E (list APSJob);
  aps_remove : APSJob -> M E unit;
  aps_pause : APSJob -> M E unit;
  aps_resume : APSJob -> M E unit;
  aps_next_run_time : APSJob -> M E (option datetime)
}.

(** [class JobQueue], with its slots; [_dispatcher] is a weak reference,
    kept as the address of its referent. *)
Record JobQueue (E : Type) : Type := {
  _dispatcher : option addr;
  scheduler : E
}.

(** A call the module makes to host code. *)
Inductive event : Type :=
| CallFromJob (self : addr)
| CallCallback (f : Callback) (ctx : CallbackContext)
| CallDispatchError (exc : exn) (self : addr)
| CallUpdatePersistence.

(** The world the methods run in: the number of clock reads made so far, the
    state and the log of host code, the dispatcher objects that are alive,
    the queue, and the store of [Job] objects. *)
Record World (E : Type) : Type := {
  reads : nat;
  user : HostState;
  log : list event;
  hosts : gmap addr Dispatcher;
  queue : JobQueue E;
  heap : list Job
}.

End Objects.

Arguments _dispatcher {E} _.
Arguments scheduler {E} _.
Arguments reads {_ E} _.
Arguments user {_ E} _.
Arguments log {_ E} _.
Arguments hosts {_ E} _.
Arguments queue {_ E} _.
Arguments heap {_ E} _.

(* ================================================================== *)
(** ** The methods                                                     *)
(* ================================================================== *)

Section Methods.
Context `{Ext : Externals} {E : Type} `{Eng : !TimerEngine E}.

(** *** Reading and writing the world *)

Definition set_reads (n : nat) (w : World E) : World E :=
  {| reads := n; user := user w; log := log w; hosts := hosts w;
     queue := queue w; heap := heap w |}.

Definition set_host_state (u : HostState) (l : list event) (w : World E)
  : World E :=
  {| reads := reads w; user := u; log := l; hosts := hosts w;
     queue := queue w; heap := heap w |}.

Definition set_hosts (h : gmap addr Dispatcher) (w : World E) : World E :=
  {| reads := reads w; user := user w; log := log w; hosts := h;
     queue := queue w; heap := heap w |}.

Definition set_queue (q : JobQueue E) (w : World E) : World E :=
  {| reads := reads w; user := user w; log := log w; hosts := hosts w;
     queue := q; heap := heap w |}.

Definition set_heap (h : list Job) (w : World E) : World E :=
  {| reads := reads w; user := user w; log := log w; hosts := hosts w;
     queue := queue w; heap := h |}.

Definition set_scheduler (e : E) (w : World E) : World E :=
  set_queue {| _dispatcher := _dispatcher (queue w); scheduler := e |} w.

(** A call into the scheduler of the queue. *)
Definition engine {A} (m : M E A) : M (World E) A :=
  fun w => match m (scheduler (queue w)) with
           | (r, e') => (r, set_scheduler e' w)
           end.

(** A call into host code, entered in the log. *)
Definition call {A} (ev : event) (f : M HostState A) : M (World E) A :=
  fun w => match f (user w) with
           | (r, u') => (r, set_host_state u' (log w ++ [ev]) w)
           end.

(** [datetime.datetime.now(tz)]: one read of the clock. *)
Definition datetime_now (tz : tzinfo) : M (World E) datetime :=
  fun w => (Ok (at_utc tz (utc_clock (reads w))), set_reads (S (reads w)) w).

(** [self.scheduler.timezone]. *)
Definition scheduler_timezone : M (World E) tzinfo :=
  fun w => (Ok (sched_timezone (scheduler (queue w))), w).

(** The object at an address.  Every Python reference has a referent; an
    address without one is answered with an error of the model. *)
Definition no_object : exn := Exn (OtherException "SystemError") "no object".

Definition deref (a : addr) : M (World E) Job :=
  fun w => match heap w !! a with
           | Some j => (Ok j, w)
           | None => (Raise no_object, w)
           end.

(** A new object in the store. *)
Definition alloc (j : Job) : M (World E) addr :=
  fun w => (Ok (length (heap w)), set_heap (heap w ++ [j]) w).

(** An attribute assignment on the object at [a]. *)
Definition assign (a : addr) (f : Job -> Job) : M (World E) unit :=
  fun w => match heap w !! a with
           | Some j => (Ok tt, set_heap (<[a := f j]> (heap w)) w)
           | None => (Raise no_object, w)
           end.

Definition with_removed (b : bool) (j : Job) : Job :=
  {| callback := callback j; context := context j; name := name j;
     _removed := b; _enabled := _enabled j; job := job j |}.

Definition with_enabled (b : bool) (j : Job) : Job :=
  {| callback := callback j; context := context j; name := name j;
     _removed := _removed j; _enabled := b; job := job j |}.

Definition with_job (h : APSJob) (j : Job) : Job :=
  {| callback := callback j; context := context j; name := name j;
     _removed := _removed j; _enabled := _enabled j; job := Some h |}.

(** [name or callback.__name__]: [None] and the empty string are falsy,
    and the attribute is read only then. *)
Definition name_or (name_ : option string) (f : Callback) : result string :=
  match name_ with
  | Some EmptyString | None => __name__ f
  | Some s => Ok s
  end.

Definition lift {S A} (r : result A) : M S A := fun s => (r, s).

(** [x or y] on an optional [tzinfo]: a [tzinfo] object is truthy. *)
Definition tz_or (x : option tzinfo) (y : tzinfo) : tzinfo :=
  match x with
  | Some tz => tz
  | None => y
  end.

(** [if not job_kwargs: job_kwargs = {}]. *)
Definition kwargs_or_empty (kw : option JSONDict) : JSONDict :=
  match kw with
  | Some (_ :: _ as d) => d
  | _ => []
  end.

(** *** class Job *)

(** [Job.__init__]. *)
Definition Job__init__ (callback_ : Callback) (context_ : PyObj)
    (name_ : option string) (job_ : option APSJob) : result Job :=
  match name_or name_ callback_ with
  | Ok name_ =>
      Ok {| callback := callback_;
            context := context_;
            name := name_;
            _removed := false;
            _enabled := false;
            job := job_ |}
  | Raise e => Raise e
  end.

(** Modelled from the spec: [telegram._utils.asyncio.run_non_blocking] is
    not under src/; per section 4.3 of the spec, [run] "invokes
    callback(context_built_from(self, host))", so the helper is the call of
    [func] on its argument, with the outcome of that call. *)
Definition run_non_blocking (f : Callback) (ctx : CallbackContext)
  : M (World E) unit :=
  call (CallCallback f ctx) (__call__ f ctx).

(** [Job.run]. *)
Definition run (self : addr) (dispatcher : Dispatcher) : M (World E) unit :=
  try_finally
    (try_except_Exception
       (let! me := deref self in
        let! ctx := call (CallFromJob self) (from_job dispatcher self) in
        run_non_blocking (callback me) ctx)
       (fun exc =>
          call (CallDispatchError exc self)
               (dispatch_error dispatcher exc self)))
    (call CallUpdatePersistence (update_persistence dispatcher)).

(** [Job.__call__]. *)
Definition Job__call__ (self : addr) (dispatcher : Dispatcher)
  : M (World E) unit :=
  run self dispatcher.

(** A method call [self.job.attr(...)] on the handle; without a handle,
    [self.job] is [None]. *)
Definition none_has_no (attr : string) : exn :=
  Exn AttributeError ("'NoneType' object has no attribute '" +:+ attr +:+ "'").

Definition on_handle {A} (h : option APSJob) (attr : string)
    (m : APSJob -> M E A) : M (World E) A :=
  match h with
  | Some j => engine (m j)
  | None => raise (none_has_no attr)
  end.

(** [Job.schedule_removal]. *)
Definition schedule_removal (self : addr) : M (World E) unit :=
  let! me := deref self in
  let! _ := on_handle (job me) "remove" aps_remove in
  assign self (with_removed true).

(** [Job.removed] and [Job.enabled]. *)
Definition removed (self : addr) : M (World E) bool :=
  let! me := deref self in ret (_removed me).

Definition enabled (self : addr) : M (World E) bool :=
  let! me := deref self in ret (_enabled me).

(** The setter of [Job.enabled]. *)
Definition set_enabled (self : addr) (status : bool) : M (World E) unit :=
  let! me := deref self in
  let! _ := (if status
             then on_handle (job me) "resume" aps_resume
             else on_handle (job me) "pause" aps_pause) in
  assign self (with_enabled status).

(** The error of [Job.__getattr__] for an attribute that the handle does
    not have either. *)
Definition no_attribute (item : string) : exn :=
  Exn AttributeError
    ("Neither 'telegram.ext.Job' nor 'apscheduler.job.Job' has attribute '"
       +:+ item +:+ "'").

(** [Job.next_t].  It is a property of a class that has [__getattr__]: when
    the getter raises an [AttributeError], the lookup goes on to
    [__getattr__('next_t')], and no handle, nor [None], has an attribute of
    that name. *)
Definition next_t (self : addr) : M (World E) (option datetime) :=
  fun w =>
    match (let! me := deref self in
           on_handle (job me) "next_run_time" aps_next_run_time) w with
    | (Raise e, w') =>
        match exn_cls e with
        | AttributeError => (Raise (no_attribute "next_t"), w')
        | _ => (Raise e, w')
        end
    | out => out
    end.

(** [Job._from_aps_job]. *)
Definition _from_aps_job (j : APSJob) : addr := func j.

(** [self.id]: [id] is no slot of [Job], so the lookup goes through
    [Job.__getattr__] to the handle. *)
Definition getattr_id (self : addr) : M (World E) string :=
  let! me := deref self in
  match job me with
  | Some h => ret (aps_id h)
  | None => raise (no_attribute "id")
  end.

(** A Python value met as the other operand of a comparison. *)
Inductive pyvalue : Type :=
| VJob (a : addr)
| VNone
| VObj (o : PyObj).

(** [Job.__lt__]. *)
Definition Job__lt__ (self : addr) (other : pyvalue) : M (World E) bool :=
  ret false.

(** [Job.__eq__]. *)
Definition Job__eq__ (self : addr) (other : pyvalue) : M (World E) bool :=
  match other with
  | VJob o =>
      let! a := getattr_id self in
      let! b := getattr_id o in
      ret (String.eqb a b)
  | _ => ret false
  end.

(** *** class JobQueue *)

(** [JobQueue.__init__]. *)
Definition JobQueue__init__ : JobQueue E :=
  {| _dispatcher := None; scheduler := AsyncIOScheduler pytz_utc |}.

(** [JobQueue._tz_now]. *)
Definition _tz_now : M (World E) datetime :=
  let! tz := scheduler_timezone in
  datetime_now tz.

(** [JobQueue._parse_time_input]. *)
Definition _parse_time_input (time_ : time_input) (shift_day : bool)
  : M (World E) (option datetime) :=
  match time_ with
  | TNone => ret None
  | TNumber n =>
      let! now := _tz_now in
      let! d := lift (timedelta_seconds n) in
      let! res := lift (dt_add now d) in
      ret (Some res)
  | TTimedelta d =>
      let! now := _tz_now in
      let! res := lift (dt_add now d) in
      ret (Some res)
  | TTime t =>
      let! tz := scheduler_timezone in
      let! today := datetime_now (tz_or (t_tzinfo t) tz) in
      let date_time := combine (date today) t in
      let date_time :=
        match dt_tzinfo date_time with
        | None => localize tz date_time
        | Some _ => date_time
        end in
      if shift_day then
        let! now := datetime_now pytz_utc in
        let! past := lift (dt_le date_time now) in
        if past
        then
          let! res := lift (dt_add date_time (timedelta_days 1)) in
          ret (Some res)
        else ret (Some date_time)
      else ret (Some date_time)
  | TDatetime dt => ret (Some dt)
  end.

Definition no_dispatcher_set : exn :=
  Exn RuntimeError "No dispatcher was set for this JobQueue.".
Definition dispatcher_not_alive : exn :=
  Exn RuntimeError "The dispatcher instance is no longer alive.".

(** The property [JobQueue.dispatcher]: calling the weak reference gives
    the referent while it is alive. *)
Definition dispatcher : M (World E) Dispatcher :=
  fun w => match _dispatcher (queue w) with
           | None => (Raise no_dispatcher_set, w)
           | Some ref =>
               match hosts w !! ref with
               | Some d => (Ok d, w)
               | None => (Raise dispatcher_not_alive, w)
               end
           end.

(** [JobQueue.set_dispatcher], on the dispatcher object at [d]. *)
Definition set_dispatcher (d : addr) : M (World E) unit :=
  fun w => match hosts w !! d with
           | None => (Raise no_object, w)
           | Some obj =>
               let w1 := set_queue {| _dispatcher := Some d;
                                      scheduler := scheduler (queue w) |} w in
               match bot_defaults_tzinfo obj with
               | Some tz => engine (sched_configure (tz_or tz pytz_utc)) w1
               | None => (Ok tt, w1)
               end
           end.

(** The tail shared by the [run_*] methods: [j = self.scheduler.add_job(...)],
    [job.job = j], [return job]. *)
Definition register (job_ : addr) (req : add_job_request) : M (World E) addr :=
  let! j := engine (sched_add_job req) in
  let! _ := assign job_ (with_job j) in
  ret job_.

(** [JobQueue.run_once]. *)
Definition run_once (callback_ : Callback) (when : time_input)
    (context_ : PyObj) (name_ : option string) (job_kwargs : option JSONDict)
  : M (World E) addr :=
  let job_kwargs := kwargs_or_empty job_kwargs in
  let! name_ := lift (name_or name_ callback_) in
  let! me := lift (Job__init__ callback_ context_ (Some name_) None) in
  let! job_ := alloc me in
  let! date_time := _parse_time_input when true in
  let! d := dispatcher in
  match date_time with
  | None => raise (none_has_no "tzinfo")
  | Some dt =>
      let! tz := scheduler_timezone in
      register job_
        {| req_func := job_; req_name := name_;
           req_trigger := TriggerDate dt (tz_or (dt_tzinfo dt) tz);
           req_args := d; req_kwargs := job_kwargs |}
  end.

(** The [interval] argument of [run_repeating]. *)
Inductive interval_input : Type :=
| IntervalNumber (n : number)
| IntervalTimedelta (d : timedelta).

Definition last_before_first : exn :=
  Exn ValueError "'last' must not be before 'first'!".

(** [if dt_last and dt_first and dt_last < dt_first: raise ValueError]; a
    [datetime] is truthy, [None] is not. *)
Definition check_last_first (dt_last dt_first : option datetime)
  : M (World E) unit :=
  match dt_last, dt_first with
  | Some l, Some f =>
      let! before := lift (dt_lt l f) in
      if before then raise last_before_first else ret tt
  | _, _ => ret tt
  end.


(** [JobQueue.run_repeating]. *)
Definition run_repeating (callback_ : Callback) (interval : interval_input)
    (first last : time_input) (context_ : PyObj) (name_ : option string)
    (job_kwargs : option JSONDict) : M (World E) addr :=
  let job_kwargs := kwargs_or_empty job_kwargs in
  let! name_ := lift (name_or name_ callback_) in
  let! me := lift (Job__init__ callback_ context_ (Some name_) None) in
  let! job_ := alloc me in
  let! dt_first := _parse_time_input first false in
  let! dt_last := _parse_time_input last false in
  let! _ := check_last_first dt_last dt_first in
  let seconds :=
    match interval with
    | IntervalTimedelta d => PyFloat (total_seconds d)
    | IntervalNumber n => n
    end in
  let! d := dispatcher in
  register job_
    {| req_func := job_; req_name := name_;
       req_trigger := TriggerInterval dt_first dt_last seconds;
       req_args := d; req_kwargs := job_kwargs |}.

(** [JobQueue.run_monthly]. *)
Definition run_monthly (callback_ : Callback) (when : time) (day : Z)
    (context_ : PyObj) (name_ : option string) (job_kwargs : option JSONDict)
  : M (World E) addr :=
  let job_kwargs := kwargs_or_empty job_kwargs in
  let! name_ := lift (name_or name_ callback_) in
  let! me := lift (Job__init__ callback_ context_ (Some name_) None) in
  let! job_ := alloc me in
  let! d := dispatcher in
  let! tz := scheduler_timezone in
  register job_
    {| req_func := job_; req_name := name_;
       req_trigger :=
         TriggerCronDay (if day =? -1 then DayLast else DayNumber day)
           (hour when) (minute when) (second when) (tz_or (t_tzinfo when) tz);
       req_args := d; req_kwargs := job_kwargs |}.

(** [JobQueue.run_daily]; [days] defaults to [tuple(range(7))]. *)
Definition EVERY_DAY : list Z := [0; 1; 2; 3; 4; 5; 6].

Definition run_daily (callback_ : Callback) (time_ : time) (days : list Z)
    (context_ : PyObj) (name_ : option string) (job_kwargs : option JSONDict)
  : M (World E) addr :=
  let job_kwargs := kwargs_or_empty job_kwargs in
  let! name_ := lift (name_or name_ callback_) in
  let! me := lift (Job__init__ callback_ context_ (Some name_) None) in
  let! job_ := alloc me in
  let! d := dispatcher in
  let! tz := scheduler_timezone in
  register job_
    {| req_func := job_; req_name := name_;
       req_trigger :=
         TriggerCronWeek (String.concat "," (pretty <$> days))
           (hour time_) (minute time_) (second time_)
           (tz_or (t_tzinfo time_) tz);
       req_args := d; req_kwargs := job_kwargs |}.

(** [JobQueue.run_custom]. *)
Definition run_custom (callback_ : Callback) (job_kwargs : JSONDict)
    (context_ : PyObj) (name_ : option string) : M (World E) addr :=
  let! name_ := lift (name_or name_ callback_) in
  let! me := lift (Job__init__ callback_ context_ (Some name_) None) in
  let! job_ := alloc me in
  let! d := dispatcher in
  register job_
    {| req_func := job_; req_name := name_; req_trigger := TriggerCustom;
       req_args := d; req_kwargs := job_kwargs |}.

(** [JobQueue.start] and [JobQueue.stop]. *)
Definition start : M (World E) unit :=
  fun w => if sched_running (scheduler (queue w))
           then (Ok tt, w)
           else engine sched_start w.

Definition stop (wait : bool) : M (World E) unit :=
  fun w => if sched_running (scheduler (queue w))
           then engine (sched_shutdown wait) w
           else (Ok tt, w).

(** [JobQueue.jobs]. *)
Definition jobs : M (World E) (list addr) :=
  let! js := engine sched_get_jobs in
  ret (_from_aps_job <$> js).

(** [JobQueue.get_jobs_by_name]. *)
Fixpoint with_name (name_ : string) (js : list addr)
  : M (World E) (list addr) :=
  match js with
  | [] => ret []
  | a :: rest =>
      let! j := deref a in
      let! found := with_name name_ rest in
      ret (if String.eqb (name j) name_ then a :: found else found)
  end.

Definition get_jobs_by_name (name_ : string) : M (World E) (list addr) :=
  let! js := jobs in
  with_name name_ js.

(** *** Any operation on a Job or on the JobQueue *)

(** One call of a method of [Job] (on the object at [self]) or of
    [JobQueue], with its arguments. *)
Inductive op : Type :=
| OpSetDispatcher (d : addr)
| OpDispatcher
| OpRunOnce (f : Callback) (when : time_input) (c : PyObj)
    (n : option string) (kw : option JSONDict)
| OpRunRepeating (f : Callback) (interval : interval_input)
    (first last : time_input) (c : PyObj) (n : option string)
    (kw : option JSONDict)
| OpRunMonthly (f : Callback) (when : time) (day : Z) (c : PyObj)
    (n : option string) (kw : option JSONDict)
| OpRunDaily (f : Callback) (t : time) (days : list Z) (c : PyObj)
    (n : option string) (kw : option JSONDict)
| OpRunCustom (f : Callback) (kw : JSONDict) (c : PyObj) (n : option string)
| OpStart
| OpStop (wait : bool)
| OpJobs
| OpGetJobsByName (n : string)
| OpRun (self : addr) (d : Dispatcher)
| OpCall (self : addr) (d : Dispatcher)
| OpScheduleRemoval (self : addr)
| OpRemoved (self : addr)
| OpEnabled (self : addr)
| OpSetEnabled (self : addr) (status : bool)
| OpNextT (self : addr)
| OpLt (self : addr) (other : pyvalue)
| OpEq (self : addr) (other : pyvalue).

(** The world after a computation, whatever its outcome. *)
Definition after {A} (m : M (World E) A) (w : World E) : World E := snd (m w).

Definition exec (o : op) : World E -> World E :=
  match o with
  | OpSetDispatcher d => after (set_dispatcher d)
  | OpDispatcher => after dispatcher
  | OpRunOnce f when c n kw => after (run_once f when c n kw)
  | OpRunRepeating f i first last c n kw =>
      after (run_repeating f i first last c n kw)
  | OpRunMonthly f when day c n kw => after (run_monthly f when day c n kw)
  | OpRunDaily f t days c n kw => after (run_daily f t days c n kw)
  | OpRunCustom f kw c n => after (run_custom f kw c n)
  | OpStart => after start
  | OpStop wait => after (stop wait)
  | OpJobs => after jobs
  | OpGetJobsByName n => after (get_jobs_by_name n)
  | OpRun self d => after (run self d)
  | OpCall self d => after (Job__call__ self d)
  | OpScheduleRemoval self => after (schedule_removal self)
  | OpRemoved self => after (removed self)
  | OpEnabled self => after (enabled self)
  | OpSetEnabled self status => after (set_enabled self status)
  | OpNextT self => after (next_t self)
  | OpLt self other => after (Job__lt__ self other)
  | OpEq self other => after (Job__eq__ self other)
  end.

Definition exec_all (ops : list op) (w : World E) : World E :=
  foldl (fun w o => exec o w) w ops.

(** Every job object of [w] is an object of [w'], where its [removed] flag
    is true if it was true in [w]. *)
Definition keeps_removed (w w' : World E) : Prop :=
  forall (a : addr) (j : Job), heap w !! a = Some j ->
    exists j', heap w' !! a = Some j' /\
               (_removed j = true -> _removed j' = true).

(** A computation that never takes a job object away and never clears a
    [removed] flag. *)
Definition monotone {A} (m : M (World E) A) : Prop :=
  forall w, keeps_removed w (after m w).

(** What a [run_*] method leaves behind, [me] being the job it builds.
    When it returns [a]: [a] is a new object, placed after the objects
    there were, which are as they were; it is [me] with the handle that
    the scheduler returned for an entry that invokes [a] under the name of
    [me].  When it raises: [me] is there all the same, without a handle. *)
Definition scheduled (me : Job) (w w' : World E) (a : addr) : Prop :=
  a = length (heap w) /\
  exists h req,
    heap w' = heap w ++ [with_job h me] /\
    sched_add_job req (scheduler (queue w)) = (Ok h, scheduler (queue w')) /\
    req_func req = a /\
    req_name req = name me.

(** [j'] is [j] but for its two flags. *)
Definition same_but_flags (j j' : Job) : Prop :=
  callback j' = callback j /\ context j' = context j /\
  name j' = name j /\ job j' = job j.

(** [job.name == name_] for the object at [a]. *)
Definition named (w : World E) (name_ : string) (a : addr) : bool :=
  match heap w !! a with
  | Some j => String.eqb (name j) name_
  | None => false
  end.

Definition run_outcome (me : Job) (w : World E)
    (out : result addr * World E) : Prop :=
  match fst out with
  | Ok a => scheduled me w (snd out) a
  | Raise _ => heap (snd out) = heap w ++ [me]
  end.

(** *** Reading the log *)

(** The number of calls of the post-run hook in a log. *)
Fixpoint hook_calls (evs : list event) : nat :=
  match evs with
  | [] => 0%nat
  | CallUpdatePersistence :: rest => S (hook_calls rest)
  | _ :: rest => hook_calls rest
  end.

(** The errors reported to the host, each with the job it was tagged with. *)
Fixpoint reports (evs : list event) : list (exn * addr) :=
  match evs with
  | [] => []
  | CallDispatchError exc a :: rest => (exc, a) :: reports rest
  | _ :: rest => reports rest
  end.

(** The calls of callbacks, each with the context it was given. *)
Fixpoint callback_calls (evs : list event)
  : list (Callback * CallbackContext) :=
  match evs with
  | [] => []
  | CallCallback f ctx :: rest => (f, ctx) :: callback_calls rest
  | _ :: rest => callback_calls rest
  end.

End Methods.

Arguments monotone {_} E {A} m.

(* ================================================================== *)
(** ** A concrete world                                                *)
(* ================================================================== *)

(** A small instance of the surroundings, on which the methods compute:
    host code keeps a journal of strings, floats are whole numbers of
    microseconds, the clock starts 1000 s into the year 1 and advances by
    one second per read, and the scheduler is a table of entries that accepts every
    [add_job] and looks entries up by the id of their handle. *)
Module Sample.

#[export] Instance externals : Externals := {|
  HostState := list string;
  PyObj := string;
  CallbackContext := addr;
  pyfloat := Z;
  float_us := fun x => Ok x;
  total_seconds := fun d => d;
  utc_clock := fun k => (1000 + Z.of_nat k) * SECOND
|}.

Record entry : Type := {
  e_handle : APSJob;
  e_request : add_job_request;
  e_paused : bool
}.

Record table : Type := {
  t_timezone : tzinfo;
  t_running : bool;
  t_entries : list entry;
  t_next : nat
}.

Definition has_id (i : string) (e : entry) : bool :=
  String.eqb (aps_id (e_handle e)) i.

Definition job_lookup_error (i : string) : exn :=
  Exn JobLookupError ("No job by the id of " +:+ i +:+ " was found").

Definition set_entries (es : list entry) (t : table) : table :=
  {| t_timezone := t_timezone t; t_running := t_running t;
     t_entries := es; t_next := t_next t |}.

Definition set_paused (b : bool) (e : entry) : entry :=
  {| e_handle := e_handle e; e_request := e_request e; e_paused := b |}.

(** An entry is found by the id of its handle; without one the scheduler
    raises [JobLookupError]. *)
Definition modify (h : APSJob) (f : list entry -> list entry) : M table unit :=
  fun t => if existsb (has_id (aps_id h)) (t_entries t)
           then (Ok tt, set_entries (f (t_entries t)) t)
           else (Raise (job_lookup_error (aps_id h)), t).

Definition table_add_job (req : add_job_request) : M table APSJob :=
  fun t =>
    let h := {| aps_id := pretty (t_next t); func := req_func req |} in
    (Ok h,
     {| t_timezone := t_timezone t; t_running := t_running t;
        t_entries := t_entries t ++
          [{| e_handle := h; e_request := req; e_paused := false |}];
        t_next := S (t_next t) |}).

#[export] Instance table_engine : TimerEngine table := {|
  AsyncIOScheduler := fun tz =>
    {| t_timezone := tz; t_running := false; t_entries := [];
       t_next := 0%nat |};
  sched_timezone := t_timezone;
  sched_running := t_running;
  sched_configure := fun tz t =>
    (Ok tt, {| t_timezone := tz; t_running := t_running t;
               t_entries := t_entries t; t_next := t_next t |});
  sched_start := fun t =>
    (Ok tt, {| t_timezone := t_timezone t; t_running := true;
               t_entries := t_entries t; t_next := t_next t |});
  sched_shutdown := fun _ t =>
    (Ok tt, {| t_timezone := t_timezone t; t_running := false;
               t_entries := t_entries t; t_next := t_next t |});
  sched_add_job := table_add_job;
  sched_get_jobs := fun t => (Ok (e_handle <$> t_entries t), t);
  aps_remove := fun h =>
    modify h (filter (fun e => has_id (aps_id h) e = false));
  aps_pause := fun h =>
    modify h (fmap (fun e =>
      if has_id (aps_id h) e then set_paused true e else e));
  aps_resume := fun h =>
    modify h (fmap (fun e =>
      if has_id (aps_id h) e then set_paused false e else e));
  aps_next_run_time := fun _ t => (Ok None, t)
|}.

(** Callbacks: one that returns, one that raises a [ValueError], one that
    raises [KeyboardInterrupt]. *)
Definition returning : Callback :=
  {| __name__ := Ok "returning";
     __call__ := fun _ u => (Ok tt, u ++ ["ran"]) |}.

Definition failing : Callback :=
  {| __name__ := Ok "failing";
     __call__ := fun _ u => (Raise (Exn ValueError "boom"), u) |}.

Definition interrupting : Callback :=
  {| __name__ := Ok "interrupting";
     __call__ := fun _ u => (Raise (Exn KeyboardInterrupt ""), u) |}.

(** A host whose hooks return. *)
Definition host : Dispatcher :=
  {| from_job := fun a u => (Ok a, u);
     dispatch_error := fun exc _ u => (Ok tt, u ++ ["error: " +:+ exn_msg exc]);
     update_persistence := fun u => (Ok tt, u ++ ["persisted"]);
     bot_defaults_tzinfo := None |}.

(** A host that cannot build the context, and one whose post-run hook
    raises. *)
Definition no_context_host : Dispatcher :=
  {| from_job := fun _ u => (Raise (Exn TypeError "no context"), u);
     dispatch_error := dispatch_error host;
     update_persistence := update_persistence host;
     bot_defaults_tzinfo := None |}.

Definition no_persistence_host : Dispatcher :=
  {| from_job := from_job host;
     dispatch_error := dispatch_error host;
     update_persistence := fun u => (Raise (Exn RuntimeError "disk full"), u);
     bot_defaults_tzinfo := None |}.

(** A fresh queue, without and with a host at address 0. *)
Definition w0 : World table :=
  {| reads := 0%nat; user := []; log := []; hosts := ∅;
     queue := JobQueue__init__; heap := [] |}.

Definition w_host : World table :=
  after (set_dispatcher 0%nat) (set_hosts {[ 0%nat := host ]} w0).


(** Two jobs scheduled through the queue of [w_host]: they share callback
    and payload and differ in their handles. *)
Definition w_two : World table :=
  after (run_once returning (TNumber (PyInt 5)) "payload" None None)
    (after (run_once returning (TNumber (PyInt 5)) "payload" None None)
       w_host).

(** The world [w_two] once the scheduler has dropped its entries, the job
    objects being still held. *)
Definition w_dropped : World table :=
  set_scheduler (AsyncIOScheduler pytz_utc) w_two.

(** Ten past midnight, without timezone; and a naive [datetime]. *)
Definition ten_past : time :=
  {| hour := 0; minute := 10; second := 0; microsecond := 0;
     t_tzinfo := None |}.

Definition naive_instant : datetime :=
  {| wall := 5000 * SECOND; dt_tzinfo := None |}.

(** The job that [Job(f, "payload")] builds from a callback with a name. *)
Definition job_of (f : Callback) (name_ : string) : Job :=
  {| callback := f; context := "payload"; name := name_;
     _removed := false; _enabled := false; job := None |}.

(** A world holding one job object per callback above, without handles. *)
Definition w_jobs : World table :=
  set_heap [job_of returning "returning";
            job_of failing "failing";
            job_of interrupting "interrupting"] w0.

(** A callable without a [__name__], as a [functools.partial] object is. *)
Definition nameless : Callback :=
  {| __name__ :=
       Raise (Exn AttributeError
                "'functools.partial' object has no attribute '__name__'");
     __call__ := fun _ u => (Ok tt, u ++ ["ran"]) |}.

(** A fixed offset of 23 hours 50 minutes east of UTC, and five past
    midnight there. *)
Definition east : tzinfo :=
  {| tzname := "UTC+23:50"; utcoffset := 85800 * SECOND;
     fromutc_offset := fun _ => 85800 * SECOND;
     localize_offset := fun _ => 85800 * SECOND |}.

Definition five_past_east : time :=
  {| hour := 0; minute := 5; second := 0; microsecond := 0;
     t_tzinfo := Some east |}.

(** Hosts whose bot has defaults: without a timezone, and with [east]. *)
Definition host_defaults : Dispatcher :=
  {| from_job := from_job host;
     dispatch_error := dispatch_error host;
     update_persistence := update_persistence host;
     bot_defaults_tzinfo := Some None |}.

Definition host_east : Dispatcher :=
  {| from_job := from_job host;
     dispatch_error := dispatch_error host;
     update_persistence := update_persistence host;
     bot_defaults_tzinfo := Some (Some east) |}.

End Sample.

(* ================================================================== *)
(** ** Job.run: error isolation and the post-run hook                  *)
(* ================================================================== *)

Section Properties.
Context `{Ext : Externals} {E : Type} `{Eng : !TimerEngine E}.

(** The outcome and the log of one call into host code. *)
Lemma call_eq {A} (ev : event) (f : M HostState A) (w : World E) r u' :
  f (user w) = (r, u') ->
  call ev f w = (r, set_host_state u' (log w ++ [ev]) w).
Proof. intros Hf. unfold call. rewrite Hf. reflexivity. Qed.

(** One call into host code in the goal: name its outcome and the state it
    leaves, and replace the call by them. *)
Tactic Notation "step_call" "as" ident(r) ident(u) ident(H) :=
  match goal with
  | |- context [call ?ev ?f ?w] =>
      destruct (f (user w)) as [r u] eqn:H;
      rewrite (call_eq ev f w r u H);
      simpl in H
  end.

(** The log of the final world is the initial log followed by the calls
    made, the last of them the one call of the hook. *)
Ltac split_log :=
  simpl; rewrite <- !app_assoc; eexists;
  split; [reflexivity|]; split; [reflexivity|]; split; [reflexivity|].

(** C1, as amended.  [run] gives the callback the context the host built
    from the job.  An exception deriving from [Exception] that the callback
    raises is forwarded exactly once to [dispatch_error] with the job
    attached and does not reach the caller: [run] raises what the post-run
    hook raises, else what [dispatch_error] raised, else returns.  An
    exception that does not derive from [Exception], that is one of
    [KeyboardInterrupt], [SystemExit], [GeneratorExit],
    [asyncio.CancelledError] or of any other class deriving from
    [BaseException] only, is not reported and reaches the caller, unless
    the post-run hook raises, whose exception then does.  On every path
    [update_persistence] is called exactly once, as the last call made. *)
Theorem run_reports_and_persists (self : addr) (me : Job) (d : Dispatcher)
    (w : World E) :
  heap w !! self = Some me ->
  (forall e, isinstance_Exception e = false <->
     exn_cls e = KeyboardInterrupt \/ exn_cls e = SystemExit \/
     exn_cls e = GeneratorExit \/ exn_cls e = CancelledError \/
     exists c, exn_cls e = OtherBaseException c) /\
  exists evs : list event,
    log (after (run self d) w) = log w ++ evs /\
    hook_calls evs = 1%nat /\
    last evs = Some CallUpdatePersistence /\
    forall ctx u1, from_job d self (user w) = (Ok ctx, u1) ->
      callback_calls evs = [(callback me, ctx)] /\
      forall r u2, __call__ (callback me) ctx u1 = (r, u2) ->
        match r with
        | Ok _ =>
            reports evs = [] /\
            fst (run self d w) = fst (update_persistence d u2)
        | Raise exc =>
            if isinstance_Exception exc
            then reports evs = [(exc, self)] /\
                 fst (run self d w) =
                   match fst (update_persistence d
                                (snd (dispatch_error d exc self u2))) with
                   | Raise e => Raise e
                   | Ok _ => fst (dispatch_error d exc self u2)
                   end
            else reports evs = [] /\
                 fst (run self d w) =
                   match fst (update_persistence d u2) with
                   | Raise e => Raise e
                   | Ok _ => Raise exc
                   end
        end.
Proof.
  intros Hme. split.
  { intros [cls msg]. unfold isinstance_Exception. simpl.
    destruct cls; split; intros H; try discriminate; try reflexivity;
      try (destruct H as [H|[H|[H|[H|[c H]]]]]; discriminate);
      eauto 10. }
  unfold after, run, try_finally, try_except_Exception, bind, deref,
    run_non_blocking.
  rewrite Hme.
  step_call as r1 u1 H1. destruct r1 as [ctx|e1].
  - step_call as r2 u2 H2. destruct r2 as [[]|exc].
    + step_call as r4 u4 H4.
      destruct r4 as [[]|e4]; split_log;
        intros ctx' u1' Hctx; simplify_eq/=; (split; [reflexivity|]);
        intros r' u2' Hcb; rewrite H2 in Hcb; simplify_eq/=;
        (split; [reflexivity|]); rewrite H4; reflexivity.
    + destruct (isinstance_Exception exc) eqn:Hexc.
      * step_call as r3 u3 H3. step_call as r4 u4 H4.
        destruct r4 as [[]|e4]; split_log;
          intros ctx' u1' Hctx; simplify_eq/=; (split; [reflexivity|]);
          intros r' u2' Hcb; rewrite H2 in Hcb; simplify_eq/=; rewrite Hexc;
          (split; [reflexivity|]); rewrite H3; simpl; rewrite H4;
          reflexivity.
      * step_call as r4 u4 H4.
        destruct r4 as [[]|e4]; split_log;
          intros ctx' u1' Hctx; simplify_eq/=; (split; [reflexivity|]);
          intros r' u2' Hcb; rewrite H2 in Hcb; simplify_eq/=; rewrite Hexc;
          (split; [reflexivity|]); rewrite H4; reflexivity.
  - destruct (isinstance_Exception e1).
    + step_call as r3 u3 H3. step_call as r4 u4 H4.
      destruct r4 as [[]|e4]; split_log;
        intros ctx' u1' Hctx; simplify_eq/=.
    + step_call as r4 u4 H4.
      destruct r4 as [[]|e4]; split_log;
        intros ctx' u1' Hctx; simplify_eq/=.
Qed.

(* ================================================================== *)
(** ** The host reference                                              *)
(* ================================================================== *)

(** C9.  A queue starts without a host reference.  Reading [dispatcher]
    raises a [RuntimeError] that says so when no reference was set, raises
    a [RuntimeError] that says the instance is no longer alive when the
    referent of the weak reference is gone, and returns the referent when
    it is alive; the read changes nothing. *)
Theorem dispatcher_access (w : World E) :
  _dispatcher (JobQueue__init__ (E := E)) = None /\
  (_dispatcher (queue w) = None ->
   dispatcher w =
     (Raise (Exn RuntimeError "No dispatcher was set for this JobQueue."),
      w)) /\
  (forall ref, _dispatcher (queue w) = Some ref -> hosts w !! ref = None ->
   dispatcher w =
     (Raise (Exn RuntimeError "The dispatcher instance is no longer alive."),
      w)) /\
  (forall ref d, _dispatcher (queue w) = Some ref -> hosts w !! ref = Some d ->
   dispatcher w = (Ok d, w)).
Proof.
  unfold dispatcher. repeat split.
  - intros ->. reflexivity.
  - intros ref -> ->. reflexivity.
  - intros ref d -> ->. reflexivity.
Qed.

(* ================================================================== *)
(** ** Flags of a Job and the scheduler                                *)
(* ================================================================== *)

Lemma engine_eq {A} (m : M E A) (w : World E) r e' :
  m (scheduler (queue w)) = (r, e') ->
  engine m w = (r, set_scheduler e' w).
Proof. intros Hm. unfold engine. rewrite Hm. reflexivity. Qed.

Lemma assign_eq (a : addr) (f : Job -> Job) (w : World E) j :
  heap w !! a = Some j ->
  assign a f w = (Ok tt, set_heap (<[a := f j]> (heap w)) w).
Proof. intros Hj. unfold assign. rewrite Hj. reflexivity. Qed.

Lemma lookup_assigned (a : addr) (j j' : Job) (h : list Job) :
  h !! a = Some j -> <[a := j']> h !! a = Some j'.
Proof.
  intros Hj. apply list_lookup_insert_eq. eapply lookup_lt_Some, Hj.
Qed.

(** C8.  On a job with a handle, setting [enabled] makes one request to the
    scheduler, [resume] for true and [pause] for false.  When the request
    returns, the flag holds the requested value; when it raises, the
    exception reaches the caller and the flag keeps its value. *)
Theorem enabled_setter (self : addr) (me : Job) (h : APSJob) (status : bool)
    (w : World E) :
  heap w !! self = Some me ->
  job me = Some h ->
  let request := if status then aps_resume h else aps_pause h in
  let out := set_enabled self status w in
  scheduler (queue (snd out)) = snd (request (scheduler (queue w))) /\
  match fst (request (scheduler (queue w))) with
  | Ok _ =>
      fst out = Ok tt /\ fst (enabled self (snd out)) = Ok status
  | Raise exc =>
      fst out = Raise exc /\ fst (enabled self (snd out)) = Ok (_enabled me)
  end.
Proof.
  intros Hme Hjob request out. subst out.
  unfold set_enabled, bind, deref. rewrite Hme, Hjob.
  assert (Hreq : (if status
                  then on_handle (Some h) "resume" aps_resume
                  else on_handle (Some h) "pause" aps_pause) w
                 = engine request w)
    by (subst request; destruct status; reflexivity).
  rewrite Hreq. clear Hreq.
  destruct (request (scheduler (queue w))) as [r e'] eqn:Hr.
  rewrite (engine_eq _ _ _ _ Hr).
  destruct r as [[]|exc]; simpl.
  - rewrite (assign_eq self _ (set_scheduler e' w) me Hme). simpl.
    split; [reflexivity|]. split; [reflexivity|].
    unfold enabled, bind, deref. simpl.
    rewrite (lookup_assigned _ _ _ _ Hme). reflexivity.
  - split; [reflexivity|]. split; [reflexivity|].
    unfold enabled, bind, deref. simpl. rewrite Hme. reflexivity.
Qed.

(** C10.  On a job whose [removed] flag is false: when the scheduler's
    [remove] raises, [schedule_removal] raises the same exception and the
    flag is still false; and the flag is true afterwards only if the job
    has a handle and the scheduler's [remove] of it returned. *)
Theorem schedule_removal_atomic (self : addr) (me : Job) (w : World E) :
  heap w !! self = Some me ->
  _removed me = false ->
  (forall h exc e',
     job me = Some h ->
     aps_remove h (scheduler (queue w)) = (Raise exc, e') ->
     fst (schedule_removal self w) = Raise exc /\
     fst (removed self (after (schedule_removal self) w)) = Ok false) /\
  (fst (removed self (after (schedule_removal self) w)) = Ok true ->
   exists h e',
     job me = Some h /\
     aps_remove h (scheduler (queue w)) = (Ok tt, e')).
Proof.
  intros Hme Hflag. split.
  - intros h exc e' Hjob Hrm.
    unfold after, schedule_removal, bind, deref, on_handle.
    rewrite Hme, Hjob, (engine_eq _ _ _ _ Hrm). simpl.
    split; [reflexivity|].
    unfold removed, bind, deref. simpl. rewrite Hme, Hflag. reflexivity.
  - unfold after, schedule_removal, bind, deref, on_handle. rewrite Hme.
    destruct (job me) as [h|] eqn:Hjob.
    + destruct (aps_remove h (scheduler (queue w))) as [r e'] eqn:Hrm.
      rewrite (engine_eq _ _ _ _ Hrm).
      destruct r as [[]|exc]; simpl.
      * intros _. exists h, e'. split; [reflexivity|assumption].
      * unfold removed, bind, deref. simpl. rewrite Hme, Hflag. discriminate.
    + unfold raise, removed, bind, deref. simpl. rewrite Hme, Hflag.
      discriminate.
Qed.

(* ================================================================== *)
(** ** Comparing jobs                                                  *)
(* ================================================================== *)

(** C4.  Two jobs with handles compare equal exactly when the ids of their
    handles are equal, whatever their callbacks, contexts and names; and
    [<] answers false on all operands. *)
Theorem job_equality (a b : addr) (ja jb : Job) (ha hb : APSJob)
    (w : World E) :
  heap w !! a = Some ja ->
  heap w !! b = Some jb ->
  job ja = Some ha ->
  job jb = Some hb ->
  (exists eq, Job__eq__ a (VJob b) w = (Ok eq, w) /\
              (eq = true <-> aps_id ha = aps_id hb)) /\
  (forall self other (w' : World E),
     Job__lt__ self other w' = (Ok false, w')).
Proof.
  intros Ha Hb Hja Hjb. split; [|reflexivity].
  exists (String.eqb (aps_id ha) (aps_id hb)). split.
  - unfold Job__eq__, getattr_id, bind, deref.
    rewrite Ha, Hja. simpl. rewrite Hb, Hjb. reflexivity.
  - apply String.eqb_eq.
Qed.

(* ================================================================== *)
(** ** The resolver of time inputs                                     *)
(* ================================================================== *)

Lemma set_reads_same (w : World E) : set_reads (reads w) w = w.
Proof. destruct w; reflexivity. Qed.

Lemma time_us_range (t : time) : valid_time t -> 0 <= time_us t < DAY.
Proof.
  unfold valid_time, time_us, DAY, SECOND. lia.
Qed.

Lemma classic_fits (us : Z) : timedelta_fits us \/ ~ timedelta_fits us.
Proof. unfold timedelta_fits. lia. Qed.

Lemma new_timedelta_fits (us : Z) :
  timedelta_fits us -> new_timedelta us = Ok us.
Proof.
  unfold timedelta_fits, new_timedelta, MAX_DELTA_DAYS, C_INT_MIN, C_INT_MAX.
  intros [Hlo Hhi].
  assert (HDAY : 0 < DAY) by (unfold DAY, SECOND; lia).
  assert (Hd1 : -999999999 <= us `div` DAY)
    by (apply Z.div_le_lower_bound; lia).
  assert (Hd2 : us `div` DAY < 999999999 + 1)
    by (apply Z.div_lt_upper_bound; lia).
  repeat match goal with
    | |- context [?a <? ?b] =>
        replace (a <? b) with false by (symmetry; apply Z.ltb_ge; lia)
    end.
  reflexivity.
Qed.

Lemma new_timedelta_overflows (us : Z) :
  ~ timedelta_fits us ->
  exists e, new_timedelta us = Raise e /\ exn_cls e = OverflowError.
Proof.
  unfold timedelta_fits, new_timedelta.
  intros Hout.
  assert (HDAY : 0 < DAY) by (unfold DAY, SECOND; lia).
  destruct ((us `div` DAY <? C_INT_MIN) || (C_INT_MAX <? us `div` DAY));
    [eexists; split; reflexivity|].
  destruct ((us `div` DAY <? - MAX_DELTA_DAYS)
            || (MAX_DELTA_DAYS <? us `div` DAY))
    eqn:Hdays; [eexists; split; reflexivity|].
  apply orb_false_iff in Hdays as [H1 H2].
  apply Z.ltb_ge in H1. apply Z.ltb_ge in H2.
  exfalso. apply Hout. pose proof (Z.mul_div_le us DAY HDAY).
  pose proof (Z.mul_succ_div_gt us DAY HDAY).
  unfold MAX_DELTA_DAYS in *. nia.
Qed.

Lemma dt_add_fits (dt : datetime) (d : timedelta) :
  datetime_fits (wall dt + d) ->
  dt_add dt d = Ok {| wall := wall dt + d; dt_tzinfo := dt_tzinfo dt |}.
Proof.
  unfold datetime_fits, dt_add. intros [Hlo Hhi].
  rewrite (Zle_imp_le_bool _ _ Hlo).
  replace (wall dt + d <? MAXORDINAL * DAY) with true
    by (symmetry; apply Z.ltb_lt; exact Hhi).
  reflexivity.
Qed.

Lemma dt_add_overflows (dt : datetime) (d : timedelta) :
  ~ datetime_fits (wall dt + d) -> dt_add dt d = Raise date_out_of_range.
Proof.
  unfold datetime_fits, dt_add. intros Hout.
  destruct (0 <=? wall dt + d) eqn:Hlo; [|reflexivity].
  destruct (wall dt + d <? MAXORDINAL * DAY) eqn:Hhi; [|reflexivity].
  apply Z.leb_le in Hlo. apply Z.ltb_lt in Hhi. lia.
Qed.

(** C5, as amended.  [None] resolves to [None].  A number of seconds and a
    duration resolve to the reading of the clock in the timezone of the
    scheduler, moved by the input, an [int] counting whole seconds and a
    float the microseconds the library makes of it: the instant resolved
    is the instant read plus the input.  This is so when the input fits a
    [timedelta] and the result a [datetime]; otherwise the resolver raises
    the error of the library. *)
Theorem parse_relative (shift : bool) (w : World E) :
  let tz := sched_timezone (scheduler (queue w)) in
  let clock := utc_clock (reads w) in
  let off := fromutc_offset tz clock in
  let resolved (t : time_input) (d : Z) :=
    fst (_parse_time_input t shift w) =
      Ok (Some {| wall := clock + off + d;
                  dt_tzinfo := Some (with_offset tz off) |}) /\
    utc_instant {| wall := clock + off + d;
                   dt_tzinfo := Some (with_offset tz off) |}
      = Some (clock + d) in
  let overflows (t : time_input) :=
    exists e, fst (_parse_time_input t shift w) = Raise e /\
              exn_cls e = OverflowError in
  fst (_parse_time_input TNone shift w) = Ok None /\
  (forall k,
     (timedelta_fits (k * SECOND) -> datetime_fits (clock + off + k * SECOND) ->
      resolved (TNumber (PyInt k)) (k * SECOND)) /\
     (~ (timedelta_fits (k * SECOND) /\
         datetime_fits (clock + off + k * SECOND)) ->
      overflows (TNumber (PyInt k)))) /\
  (forall x,
     match float_us x with
     | Ok us =>
         (timedelta_fits us -> datetime_fits (clock + off + us) ->
          resolved (TNumber (PyFloat x)) us) /\
         (~ (timedelta_fits us /\ datetime_fits (clock + off + us)) ->
          overflows (TNumber (PyFloat x)))
     | Raise e => fst (_parse_time_input (TNumber (PyFloat x)) shift w) = Raise e
     end) /\
  (forall d,
     (datetime_fits (clock + off + d) -> resolved (TTimedelta d) d) /\
     (~ datetime_fits (clock + off + d) -> overflows (TTimedelta d))).
Proof.
  intros tz clock off resolved overflows.
  assert (Hinstant : forall d,
            utc_instant {| wall := clock + off + d;
                           dt_tzinfo := Some (with_offset tz off) |}
              = Some (clock + d)).
  { intros d. unfold utc_instant, to_utc. simpl. f_equal. lia. }
  assert (Hadd : forall d, datetime_fits (clock + off + d) ->
            dt_add (at_utc tz clock) d =
              Ok {| wall := clock + off + d;
                    dt_tzinfo := Some (with_offset tz off) |}).
  { intros d Hfit. apply (dt_add_fits (at_utc tz clock) d Hfit). }
  assert (Hover : forall d, ~ datetime_fits (clock + off + d) ->
            dt_add (at_utc tz clock) d = Raise date_out_of_range).
  { intros d Hout. apply (dt_add_overflows (at_utc tz clock) d Hout). }
  assert (Hseconds : forall n us,
            match n with
            | PyInt k => us = k * SECOND
            | PyFloat x => float_us x = Ok us
            end ->
            (timedelta_fits us -> datetime_fits (clock + off + us) ->
             resolved (TNumber n) us) /\
            (~ (timedelta_fits us /\ datetime_fits (clock + off + us)) ->
             overflows (TNumber n))).
  { intros n us Hn.
    assert (Hts : timedelta_seconds n = new_timedelta us)
      by (destruct n; simpl; [rewrite Hn|rewrite Hn]; reflexivity).
    subst resolved overflows.
    unfold _parse_time_input, bind, _tz_now, scheduler_timezone,
      datetime_now, lift, ret. simpl. fold tz. fold clock. rewrite Hts.
    split.
    - intros Hfit Hdt. rewrite (new_timedelta_fits us Hfit), (Hadd us Hdt).
      split; [reflexivity|apply Hinstant].
    - intros Hout. destruct (new_timedelta us) as [d|e] eqn:Hnew.
      + assert (Hd : timedelta_fits us /\ d = us).
        { destruct (classic_fits us) as [Hf|Hf].
          - rewrite (new_timedelta_fits us Hf) in Hnew. split; congruence.
          - destruct (new_timedelta_overflows us Hf) as (e & He & _).
            congruence. }
        destruct Hd as [Hf ->]. rewrite Hover by tauto.
        eexists. split; reflexivity.
      + destruct (classic_fits us) as [Hf|Hf].
        * rewrite (new_timedelta_fits us Hf) in Hnew. discriminate.
        * destruct (new_timedelta_overflows us Hf) as (e' & He' & Hcls).
          rewrite Hnew in He'. injection He' as ->.
          eexists. split; [reflexivity|exact Hcls]. }
  split; [reflexivity|]. split; [|split].
  - intros k. apply (Hseconds (PyInt k)). reflexivity.
  - intros x. destruct (float_us x) as [us|e] eqn:Hx.
    + apply (Hseconds (PyFloat x)). exact Hx.
    + unfold _parse_time_input, bind, _tz_now, scheduler_timezone,
        datetime_now, lift. simpl. rewrite Hx. reflexivity.
  - intros d. subst resolved overflows.
    unfold _parse_time_input, bind, _tz_now, scheduler_timezone,
      datetime_now, lift, ret. simpl. fold tz. fold clock. split.
    + intros Hdt. rewrite (Hadd d Hdt). split; [reflexivity|apply Hinstant].
    + intros Hout. rewrite (Hover d Hout). eexists. split; reflexivity.
Qed.

Lemma date_combine (d : Z) (t : time) :
  valid_time t -> date (combine d t) = d.
Proof.
  intros Ht. apply time_us_range in Ht. unfold date, combine. simpl.
  symmetry. apply (Z.div_unique_pos _ _ _ (time_us t)); lia.
Qed.

Lemma timeofday_combine (d : Z) (t : time) :
  valid_time t -> timeofday (combine d t) = time_us t.
Proof.
  intros Ht. apply time_us_range in Ht. unfold timeofday, combine. simpl.
  symmetry. apply (Z.mod_unique_pos _ _ d); lia.
Qed.

(** The day after a reading, when there is one. *)
Lemma next_day (dt : datetime) :
  0 <= date dt < MAXORDINAL - 1 ->
  exists res,
    dt_add dt (timedelta_days 1) = Ok res /\
    date res = date dt + 1 /\ timeofday res = timeofday dt /\
    dt_tzinfo res = dt_tzinfo dt.
Proof.
  intros [Hlo Hhi].
  assert (HDAY : 0 < DAY) by (unfold DAY, SECOND; lia).
  pose proof (Z.mul_div_le (wall dt) DAY HDAY) as H1.
  pose proof (Z.mul_succ_div_gt (wall dt) DAY HDAY) as H2.
  unfold date in *.
  eexists. split.
  - apply dt_add_fits. unfold datetime_fits, timedelta_days. nia.
  - unfold date, timeofday, timedelta_days. simpl.
    rewrite Z.div_add, Z.mod_add by lia. repeat split.
Qed.

(** C3.  A time of day resolved with [shift_day] true is first combined
    with today's date, today being read from the clock in the timezone of
    the time of day if it has one and in the timezone of the scheduler
    otherwise, which is also the timezone given to a time of day that has
    none.  When the instant so combined is not after the instant then read
    from the clock, the result is one day later at the same time of day;
    otherwise it is the combined value.  Today is taken to have a
    tomorrow, as every day but the last of the year 9999 has. *)
Theorem parse_time_of_day_shift (t : time) (w : World E) :
  valid_time t ->
  let tz := sched_timezone (scheduler (queue w)) in
  let clock := utc_clock (reads w) in
  let today :=
    match t_tzinfo t with
    | Some own => (clock + fromutc_offset own clock) `div` DAY
    | None => (clock + fromutc_offset tz clock) `div` DAY
    end in
  let now := utc_clock (S (reads w)) in
  0 <= today < MAXORDINAL - 1 ->
  exists combined res i,
    date combined = today /\
    timeofday combined = time_us t /\
    dt_tzinfo combined =
      Some (match t_tzinfo t with
            | Some own => own
            | None => with_offset tz (localize_offset tz (wall combined))
            end) /\
    utc_instant combined = Some i /\
    fst (_parse_time_input (TTime t) true w) = Ok (Some res) /\
    (i <= now ->
     date res = today + 1 /\ timeofday res = time_us t /\
     dt_tzinfo res = dt_tzinfo combined) /\
    (now < i -> res = combined).
Proof.
  intros Ht tz clock today now Hrange.
  set (base := combine today t).
  set (combined := match dt_tzinfo base with
                   | None => localize tz base
                   | Some _ => base
                   end).
  assert (Hwall : wall combined = wall base)
    by (subst combined; destruct (dt_tzinfo base); reflexivity).
  assert (Hdate : date combined = today).
  { unfold date. rewrite Hwall. apply (date_combine today t Ht). }
  assert (Htod : timeofday combined = time_us t).
  { unfold timeofday. rewrite Hwall. apply (timeofday_combine today t Ht). }
  assert (Htz : exists own, dt_tzinfo combined = Some own /\
            own = match t_tzinfo t with
                  | Some z => z
                  | None => with_offset tz (localize_offset tz (wall combined))
                  end).
  { subst combined base. unfold combine. simpl.
    destruct (t_tzinfo t); simpl; eexists; split; reflexivity. }
  destruct Htz as (own & Hown & Hown_eq).
  destruct (next_day combined) as (later & Hlater & Hldate & Hltod & Hltz);
    [rewrite Hdate; exact Hrange|].
  set (i := to_utc (wall combined) own).
  exists combined, (if (i <=? now) then later else combined), i.
  split; [exact Hdate|]. split; [exact Htod|].
  split; [rewrite Hown, Hown_eq; reflexivity|].
  split; [unfold utc_instant; rewrite Hown; reflexivity|].
  assert (Htoday : date (at_utc (tz_or (t_tzinfo t) tz) clock) = today)
    by (subst today; destruct (t_tzinfo t); reflexivity).
  split.
  - unfold _parse_time_input, bind, scheduler_timezone, datetime_now, lift, ret.
    simpl. fold tz. fold clock. rewrite Htoday. fold base.
    change (match t_tzinfo t with
            | Some _ => base
            | None => localize tz base
            end) with combined.
    unfold dt_le, dt_compare. rewrite Hown. simpl. fold i.
    unfold to_utc. simpl. fold now.
    replace (now + 0 - 0) with now by lia.
    destruct (Z.compare_spec i now) as [Heq|Hlt|Hgt].
    + rewrite (Zle_imp_le_bool i now) by lia. rewrite Hlater. reflexivity.
    + rewrite (Zle_imp_le_bool i now) by lia. rewrite Hlater. reflexivity.
    + replace (i <=? now) with false by (symmetry; apply Z.leb_gt; lia).
      reflexivity.
  - split.
    + intros Hle. rewrite (Zle_imp_le_bool i now Hle).
      rewrite Hldate, Hltod, Hdate, Htod, Hltz. repeat split.
    + intros Hlt.
      replace (i <=? now) with false by (symmetry; apply Z.leb_gt; lia).
      reflexivity.
Qed.

(** The resolver changes nothing in the world but the number of clock
    reads. *)
Lemma parse_frame (t : time_input) (shift : bool) (w : World E) :
  exists r n, _parse_time_input t shift w = (r, set_reads n w).
Proof.
  destruct t as [|n|d|t|dt]; simpl.
  - exists (Ok None), (reads w). unfold ret. rewrite set_reads_same.
    reflexivity.
  - unfold bind, _tz_now, scheduler_timezone, datetime_now, lift, ret. simpl.
    destruct (timedelta_seconds n) as [d|e]; [|eexists _, _; reflexivity].
    match goal with
    | |- context [dt_add ?a ?b] => destruct (dt_add a b)
    end; eexists _, _; reflexivity.
  - unfold bind, _tz_now, scheduler_timezone, datetime_now, lift, ret. simpl.
    match goal with
    | |- context [dt_add ?a ?b] => destruct (dt_add a b)
    end; eexists _, _; reflexivity.
  - unfold bind, scheduler_timezone, datetime_now, lift, ret. simpl.
    destruct shift; [|eexists _, _; reflexivity].
    match goal with
    | |- context [dt_le ?a ?b] => destruct (dt_le a b) as [[]|e]
    end; try (eexists _, _; reflexivity).
    match goal with
    | |- context [dt_add ?a ?b] => destruct (dt_add a b)
    end; eexists _, _; reflexivity.
  - exists (Ok (Some dt)), (reads w). unfold ret. rewrite set_reads_same.
    reflexivity.
Qed.

(* ================================================================== *)
(** ** The methods that schedule                                       *)
(* ================================================================== *)

(** A job that [Job(callback, context, name)] builds is the job that the
    [run_*] methods build, which resolve the name first and pass it on. *)
Lemma Job__init___again (f : Callback) (c : PyObj) (n : option string)
    (h : option APSJob) (me : Job) :
  Job__init__ f c n h = Ok me ->
  name_or n f = Ok (name me) /\
  Job__init__ f c (Some (name me)) h = Ok me.
Proof.
  unfold Job__init__. destruct (name_or n f) as [nm|e] eqn:Hn; [|discriminate].
  intros [= <-]. simpl. split; [reflexivity|].
  destruct nm as [|ch nm]; simpl.
  - destruct n as [[|ch n]|]; simpl in Hn; try discriminate;
      rewrite Hn; reflexivity.
  - reflexivity.
Qed.

(** The head shared by the [run_*] methods, up to the new job object. *)
Ltac build_job Hme :=
  let Hname := fresh "Hname" in
  let Hagain := fresh "Hagain" in
  destruct (Job__init___again _ _ _ _ _ Hme) as [Hname Hagain];
  unfold bind at 1; unfold lift at 1; rewrite Hname;
  unfold bind at 1; unfold lift at 1; rewrite Hagain;
  unfold bind at 1; unfold alloc at 1.

Lemma dispatcher_frame (w w' : World E) :
  queue w' = queue w -> hosts w' = hosts w ->
  dispatcher w' = (fst (dispatcher w), w').
Proof.
  intros Hq Hh. unfold dispatcher. rewrite Hq, Hh.
  destruct (_dispatcher (queue w)) as [ref|]; [|reflexivity].
  destruct (hosts w !! ref); reflexivity.
Qed.

Lemma dispatcher_alive (ref : addr) (d : Dispatcher) (w w' : World E) :
  _dispatcher (queue w) = Some ref -> hosts w !! ref = Some d ->
  queue w' = queue w -> hosts w' = hosts w ->
  dispatcher w' = (Ok d, w').
Proof.
  intros Href Hd Hq Hh. rewrite (dispatcher_frame w w' Hq Hh).
  unfold dispatcher. rewrite Href, Hd. reflexivity.
Qed.

(** The two outcomes of the tail of a [run_*] method. *)
Lemma register_spec (a : addr) (req : add_job_request) (j : Job)
    (w : World E) :
  heap w !! a = Some j ->
  match sched_add_job req (scheduler (queue w)) with
  | (Ok h, e') =>
      register a req w =
        (Ok a, set_heap (<[a := with_job h j]> (heap w)) (set_scheduler e' w))
  | (Raise e, e') => register a req w = (Raise e, set_scheduler e' w)
  end.
Proof.
  intros Hj. unfold register, bind.
  destruct (sched_add_job req (scheduler (queue w))) as [[h|e] e'] eqn:Hadd;
    rewrite (engine_eq _ _ _ _ Hadd); [|reflexivity].
  rewrite (assign_eq a _ (set_scheduler e' w) j Hj). reflexivity.
Qed.

(** X17.  Naive values in the methods that pass a timezone on.  The
    resolver returns a [datetime] input as it is.  A time of day without
    timezone is read in
    the timezone of the scheduler: today is today there, and the result
    carries that timezone.  [run_once] on a naive [datetime] registers it
    with the timezone of the scheduler as the timezone of its trigger, and
    so do [run_monthly] and [run_daily] on a time of day without
    timezone. *)
Theorem naive_in_queue_timezone (f : Callback) (dt : datetime) (c : PyObj)
    (n : option string) (kw : option JSONDict) (ref : addr) (d : Dispatcher)
    (me : Job) (w : World E) :
  Job__init__ f c n None = Ok me ->
  dt_tzinfo dt = None ->
  _dispatcher (queue w) = Some ref ->
  hosts w !! ref = Some d ->
  let tz := sched_timezone (scheduler (queue w)) in
  let clock := utc_clock (reads w) in
  (forall any shift,
     _parse_time_input (TDatetime any) shift w = (Ok (Some any), w)) /\
  (forall t shift res, t_tzinfo t = None ->
     fst (_parse_time_input (TTime t) shift w) = Ok (Some res) ->
     let today := (clock + fromutc_offset tz clock) `div` DAY in
     let base := today * DAY + time_us t in
     dt_tzinfo res = Some (with_offset tz (localize_offset tz base)) /\
     (wall res = base \/ wall res = base + DAY)) /\
  run_once f (TDatetime dt) c n kw w =
    register (length (heap w))
      {| req_func := length (heap w);
         req_name := name me;
         req_trigger := TriggerDate dt tz;
         req_args := d;
         req_kwargs := kwargs_or_empty kw |}
      (after (alloc me) w) /\
  (forall t day, t_tzinfo t = None ->
     run_monthly f t day c n kw w =
       register (length (heap w))
         {| req_func := length (heap w);
            req_name := name me;
            req_trigger :=
              TriggerCronDay (if day =? -1 then DayLast else DayNumber day)
                (hour t) (minute t) (second t) tz;
            req_args := d;
            req_kwargs := kwargs_or_empty kw |}
         (after (alloc me) w)) /\
  (forall t days, t_tzinfo t = None ->
     run_daily f t days c n kw w =
       register (length (heap w))
         {| req_func := length (heap w);
            req_name := name me;
            req_trigger :=
              TriggerCronWeek (String.concat "," (pretty <$> days))
                (hour t) (minute t) (second t) tz;
            req_args := d;
            req_kwargs := kwargs_or_empty kw |}
         (after (alloc me) w)).
Proof.
  intros Hme Hnaive Href Hd tz clock. split; [reflexivity|]. split.
  - intros t shift res Ht.
    unfold _parse_time_input, bind, scheduler_timezone, datetime_now, lift, ret.
    simpl. rewrite Ht. simpl. fold tz. fold clock.
    set (base := (clock + fromutc_offset tz clock) `div` DAY * DAY + time_us t).
    destruct shift; [|intros [= <-]; simpl; auto].
    match goal with
    | |- context [dt_le ?a ?b] => destruct (dt_le a b) as [[|]|]
    end; simpl; try discriminate; [|intros [= <-]; simpl; auto].
    match goal with
    | |- context [dt_add ?a ?b] => destruct (dt_add a b) as [later|] eqn:Hadd
    end; simpl; try discriminate.
    intros [= <-]. unfold dt_add in Hadd. simpl in Hadd.
    match type of Hadd with
    | (if ?b then _ else _) = _ => destruct b
    end; [|discriminate].
    injection Hadd as <-. simpl. fold base.
    split; [reflexivity|right; unfold timedelta_days, base, date, at_utc; simpl; lia].
  - split; [|split].
    + unfold run_once. build_job Hme. unfold after, alloc, bind. simpl.
      rewrite (dispatcher_alive ref d w _ Href Hd) by reflexivity.
      rewrite Hnaive. reflexivity.
    + intros t day Ht. unfold run_monthly. build_job Hme.
      unfold after, alloc, bind. simpl.
      rewrite (dispatcher_alive ref d w _ Href Hd) by reflexivity.
      simpl. rewrite Ht. reflexivity.
    + intros t days Ht. unfold run_daily. build_job Hme.
      unfold after, alloc, bind. simpl.
      rewrite (dispatcher_alive ref d w _ Href Hd) by reflexivity.
      simpl. rewrite Ht. reflexivity.
Qed.

(* ================================================================== *)
(** ** run_repeating: the check of last against first                  *)
(* ================================================================== *)



Lemma dt_lt_mixed (a b : datetime) :
  (dt_tzinfo a = None /\ dt_tzinfo b <> None) \/
  (dt_tzinfo a <> None /\ dt_tzinfo b = None) ->
  dt_lt a b = Raise cannot_compare.
Proof.
  unfold dt_lt, dt_compare.
  intros [[-> Hb]|[Ha ->]].
  - destruct (dt_tzinfo b); [reflexivity|congruence].
  - destruct (dt_tzinfo a); [reflexivity|congruence].
Qed.

(** [run_repeating] once its callable is named and its two time inputs are
    resolved. *)
Lemma run_repeating_resolved (f : Callback) (interval : interval_input)
    (first last : time_input) (c : PyObj) (n : option string)
    (kw : option JSONDict) (w : World E) (me : Job)
    (dt_first dt_last : option datetime) :
  Job__init__ f c n None = Ok me ->
  let w1 := after (alloc me) w in
  let w2 := after (_parse_time_input first false) w1 in
  let w3 := after (_parse_time_input last false) w2 in
  fst (_parse_time_input first false w1) = Ok dt_first ->
  fst (_parse_time_input last false w2) = Ok dt_last ->
  run_repeating f interval first last c n kw w =
    (let! _ := check_last_first dt_last dt_first in
     let! d := dispatcher in
     register (length (heap w))
       {| req_func := length (heap w);
          req_name := name me;
          req_trigger :=
            TriggerInterval dt_first dt_last
              match interval with
              | IntervalTimedelta td => PyFloat (total_seconds td)
              | IntervalNumber s => s
              end;
          req_args := d;
          req_kwargs := kwargs_or_empty kw |}) w3 /\
  queue w3 = queue w /\ hosts w3 = hosts w /\ heap w3 = heap w ++ [me].
Proof.
  intros Hme w1 w2 w3 Hfirst Hlast.
  destruct (parse_frame first false w1) as (r1 & n1 & H1).
  assert (Hw2 : w2 = set_reads n1 w1)
    by (subst w2; unfold after; rewrite H1; reflexivity).
  rewrite H1 in Hfirst. simpl in Hfirst. subst r1.
  destruct (parse_frame last false w2) as (r2 & n2 & H2).
  assert (Hw3 : w3 = set_reads n2 w2)
    by (subst w3; unfold after; rewrite H2; reflexivity).
  rewrite H2 in Hlast. simpl in Hlast. subst r2.
  split; [|rewrite Hw3, Hw2; repeat split; reflexivity].
  unfold run_repeating. build_job Hme. cbv beta iota.
  change (set_heap (heap w ++ [me]) w) with w1.
  unfold bind at 1. rewrite H1. unfold bind at 1.
  rewrite <- Hw2, H2, <- Hw3. reflexivity.
Qed.


(** C6, where the code departs from its documentation.  A naive
    [datetime] given as [first] together with a [last] given as a
    [timedelta], which resolves to an aware instant, makes [run_repeating]
    raise the [TypeError] of the comparison: the naive [first] is not read
    in the timezone of the queue, and no job is registered. *)
Theorem run_repeating_naive_first_TypeError (f : Callback)
    (interval : interval_input) (dt : datetime) (d : timedelta) (c : PyObj)
    (n : option string) (kw : option JSONDict) (w : World E) (me : Job) :
  Job__init__ f c n None = Ok me ->
  dt_tzinfo dt = None ->
  datetime_fits (utc_clock (reads w) +
                 fromutc_offset (sched_timezone (scheduler (queue w)))
                   (utc_clock (reads w)) + d) ->
  let out := run_repeating f interval (TDatetime dt) (TTimedelta d) c n kw w in
  fst out =
    Raise (Exn TypeError
             "can't compare offset-naive and offset-aware datetimes") /\
  scheduler (queue (snd out)) = scheduler (queue w).
Proof.
  intros Hme Hnaive Hfits out. subst out.
  set (w1 := after (alloc me) w).
  assert (Hlast : exists res,
            fst (_parse_time_input (TTimedelta d) false w1) = Ok (Some res) /\
            dt_tzinfo res <> None).
  { unfold _parse_time_input, bind, _tz_now, scheduler_timezone, datetime_now,
      lift, ret. simpl.
    rewrite dt_add_fits by exact Hfits. simpl. eexists. split; [reflexivity|].
    simpl. discriminate. }
  destruct Hlast as (res & Hlast & Haware).
  destruct (run_repeating_resolved f interval (TDatetime dt) (TTimedelta d) c n
              kw w me (Some dt) (Some res) Hme eq_refl Hlast)
    as (Hrun & Hq & _ & _).
  rewrite Hrun. unfold bind, check_last_first, lift, bind.
  rewrite (dt_lt_mixed res dt) by (right; split; assumption). simpl.
  split; [reflexivity|]. rewrite <- Hq. reflexivity.
Qed.

(* ================================================================== *)
(** ** The removed flag only ever goes from false to true              *)
(* ================================================================== *)

Lemma keeps_refl (w : World E) : keeps_removed w w.
Proof. intros a j Hj. exists j. auto. Qed.

Lemma keeps_trans (w1 w2 w3 : World E) :
  keeps_removed w1 w2 -> keeps_removed w2 w3 -> keeps_removed w1 w3.
Proof.
  intros H12 H23 a j Hj.
  destruct (H12 a j Hj) as (j2 & Hj2 & Hflag2).
  destruct (H23 a j2 Hj2) as (j3 & Hj3 & Hflag3).
  exists j3. auto.
Qed.

Lemma keeps_same_heap (w w' : World E) :
  heap w' = heap w -> keeps_removed w w'.
Proof. intros Hh a j Hj. exists j. rewrite Hh. auto. Qed.

Create HintDb mono.

Lemma mono_ret {A} (a : A) : monotone E (ret a).
Proof. intros w. apply keeps_refl. Qed.

Lemma mono_raise {A} (e : exn) : monotone E (raise (A := A) e).
Proof. intros w. apply keeps_refl. Qed.

Lemma mono_lift {A} (r : result A) : monotone E (lift r).
Proof. intros w. apply keeps_refl. Qed.

Lemma mono_bind {A B} (m : M (World E) A) (k : A -> M (World E) B) :
  monotone E m -> (forall a, monotone E (k a)) -> monotone E (bind m k).
Proof.
  intros Hm Hk w. specialize (Hm w). unfold after, bind in *.
  destruct (m w) as [[a|e] w1]; simpl in *; [|exact Hm].
  eapply keeps_trans; [exact Hm|apply Hk].
Qed.

Lemma mono_try_except {A} (body : M (World E) A)
    (handler : exn -> M (World E) A) :
  monotone E body -> (forall e, monotone E (handler e)) ->
  monotone E (try_except_Exception body handler).
Proof.
  intros Hb Hh w. specialize (Hb w). unfold after, try_except_Exception in *.
  destruct (body w) as [[a|e] w1]; simpl in *; [exact Hb|].
  destruct (isinstance_Exception e); [|exact Hb].
  eapply keeps_trans; [exact Hb|apply Hh].
Qed.

Lemma mono_try_finally {A} (body : M (World E) A) (final : M (World E) unit) :
  monotone E body -> monotone E final -> monotone E (try_finally body final).
Proof.
  intros Hb Hf w. specialize (Hb w). unfold after, try_finally in *.
  destruct (body w) as [r w1]. simpl in Hb.
  specialize (Hf w1). unfold after in Hf.
  destruct (final w1) as [[[]|e] w2]; simpl in *;
    eapply keeps_trans; eassumption.
Qed.

Lemma mono_engine {A} (m : M E A) : monotone E (engine m).
Proof.
  intros w. unfold after, engine.
  destruct (m (scheduler (queue w))) as [r e']. apply keeps_same_heap.
  reflexivity.
Qed.

Lemma mono_call {A} (ev : event) (f : M HostState A) : monotone E (call ev f).
Proof.
  intros w. unfold after, call.
  destruct (f (user w)) as [r u']. apply keeps_same_heap. reflexivity.
Qed.

Lemma mono_datetime_now (tz : tzinfo) : monotone E (datetime_now tz).
Proof. intros w. apply keeps_same_heap. reflexivity. Qed.

Lemma mono_scheduler_timezone : monotone E scheduler_timezone.
Proof. intros w. apply keeps_refl. Qed.

Lemma mono_deref (a : addr) : monotone E (deref a).
Proof.
  intros w. unfold after, deref. destruct (heap w !! a); apply keeps_refl.
Qed.

Lemma mono_dispatcher : monotone E dispatcher.
Proof.
  intros w. unfold after, dispatcher.
  destruct (_dispatcher (queue w)) as [ref|]; [|apply keeps_refl].
  destruct (hosts w !! ref); apply keeps_refl.
Qed.

Lemma mono_alloc (j : Job) : monotone E (alloc j).
Proof.
  intros w a j0 Hj0. exists j0. split; [|auto].
  unfold after, alloc. simpl. apply lookup_app_l_Some. exact Hj0.
Qed.

Lemma mono_assign (a : addr) (f : Job -> Job) :
  (forall j, _removed j = true -> _removed (f j) = true) ->
  monotone E (assign a f).
Proof.
  intros Hf w a' j' Hj'. unfold after, assign.
  destruct (heap w !! a) as [j|] eqn:Hj; simpl; [|exists j'; auto].
  destruct (decide (a = a')) as [->|Hne].
  - rewrite (lookup_assigned _ _ _ _ Hj). exists (f j). split; [reflexivity|].
    assert (j' = j) as -> by congruence. apply Hf.
  - rewrite list_lookup_insert_ne by exact Hne. exists j'. auto.
Qed.

Lemma mono_on_handle {A} (h : option APSJob) (attr : string)
    (m : APSJob -> M E A) : monotone E (on_handle h attr m).
Proof.
  destruct h; simpl; [apply mono_engine|apply mono_raise].
Qed.

#[local] Hint Resolve mono_ret mono_raise mono_lift mono_engine mono_call
  mono_datetime_now mono_scheduler_timezone mono_deref mono_dispatcher
  mono_alloc mono_on_handle : mono.

(** Break a computation into the steps above. *)
Ltac mono :=
  repeat first
    [ solve [auto with mono]
    | apply mono_bind; [|intros ?]
    | apply mono_try_finally
    | apply mono_try_except; [|intros ?]
    | apply mono_assign; intros ? ?; solve [auto]
    | match goal with
      | |- monotone _ (match ?x with _ => _ end) => destruct x
      end ].

Lemma mono_parse (t : time_input) (shift : bool) :
  monotone E (_parse_time_input t shift).
Proof.
  intros w. destruct (parse_frame t shift w) as (r & n & Hp).
  unfold after. rewrite Hp. apply keeps_same_heap. reflexivity.
Qed.

Lemma mono_register (a : addr) (req : add_job_request) :
  monotone E (register a req).
Proof. unfold register. mono. Qed.

Lemma mono_set_dispatcher (d : addr) : monotone E (set_dispatcher d).
Proof.
  intros w. unfold after, set_dispatcher.
  destruct (hosts w !! d) as [obj|]; [|apply keeps_refl].
  destruct (bot_defaults_tzinfo obj) as [tz|];
    [|apply keeps_same_heap; reflexivity].
  unfold engine. simpl.
  destruct (sched_configure (tz_or tz pytz_utc) (scheduler (queue w))).
  apply keeps_same_heap. reflexivity.
Qed.

Lemma mono_with_name (n : string) (js : list addr) :
  monotone E (with_name n js).
Proof. induction js as [|a js IH]; simpl; mono. Qed.

#[local] Hint Resolve mono_parse mono_register mono_set_dispatcher
  mono_with_name : mono.

Lemma mono_run (self : addr) (d : Dispatcher) : monotone E (run self d).
Proof. unfold run, run_non_blocking. mono. Qed.

Lemma mono_schedule_removal (self : addr) : monotone E (schedule_removal self).
Proof. unfold schedule_removal. mono. Qed.

Lemma mono_next_t (self : addr) : monotone E (next_t self).
Proof.
  intros w. unfold after, next_t.
  assert (Hm : monotone E
                 (let! me := deref self in
                  on_handle (job me) "next_run_time" aps_next_run_time))
    by mono.
  specialize (Hm w). unfold after in Hm.
  match goal with
  | |- context [match ?m w with _ => _ end] => destruct (m w) as [[r|e] w']
  end; simpl in *; [exact Hm|].
  destruct (exn_cls e); exact Hm.
Qed.

Lemma mono_set_enabled (self : addr) (status : bool) :
  monotone E (set_enabled self status).
Proof. unfold set_enabled. mono. Qed.

Lemma mono_run_queue (f : Callback) (c : PyObj) (n : option string)
    (kw : option JSONDict) :
  (forall when, monotone E (run_once f when c n kw)) /\
  (forall i first last,
     monotone E (run_repeating f i first last c n kw)) /\
  (forall when day, monotone E (run_monthly f when day c n kw)) /\
  (forall t days, monotone E (run_daily f t days c n kw)) /\
  (forall kw', monotone E (run_custom f kw' c n)).
Proof.
  repeat split; intros.
  - unfold run_once. mono.
  - unfold run_repeating, check_last_first. mono.
  - unfold run_monthly. mono.
  - unfold run_daily. mono.
  - unfold run_custom. mono.
Qed.

Lemma mono_start_stop :
  monotone E start /\ forall wait, monotone E (stop wait).
Proof.
  split; [|intros wait]; intros w; unfold after, start, stop;
    destruct (sched_running (scheduler (queue w)));
    first [apply keeps_refl | apply (mono_engine _ w)].
Qed.

Lemma exec_keeps_removed (o : op) (w : World E) : keeps_removed w (exec o w).
Proof.
  pose proof mono_start_stop as [Hstart Hstop].
  destruct o as [d| |f when c n kw|f i first last c n kw|f when day c n kw
                |f t days c n kw|f kw c n| |wait| |n|self d|self d|self
                |self|self|self status|self|self other|self other];
    simpl;
    try (destruct (mono_run_queue f c n kw) as (H1 & H2 & H3 & H4 & H5));
    try (destruct (mono_run_queue f c n None) as (_ & _ & _ & _ & H5));
    match goal with
    | |- keeps_removed ?w (after ?m ?w) =>
        cut (monotone E m); [intros Hm; apply Hm|]
    end;
    auto with mono.
  - unfold jobs. mono.
  - unfold get_jobs_by_name, jobs. mono.
  - apply mono_run.
  - apply mono_run.
  - apply mono_schedule_removal.
  - unfold removed. mono.
  - unfold enabled. mono.
  - apply mono_set_enabled.
  - apply mono_next_t.
  - unfold Job__eq__, getattr_id. destruct other; mono.
Qed.

Lemma exec_all_keeps_removed (ops : list op) (w : World E) :
  keeps_removed w (exec_all ops w).
Proof.
  revert w. induction ops as [|o ops IH]; intros w; simpl.
  - apply keeps_refl.
  - eapply keeps_trans; [apply exec_keeps_removed|apply IH].
Qed.

Lemma removed_true (self : addr) (w : World E) :
  fst (removed self w) = Ok true <->
  exists j, heap w !! self = Some j /\ _removed j = true.
Proof.
  unfold removed, bind, deref, ret.
  destruct (heap w !! self) as [j|]; simpl; split.
  - intros [= Hj]. exists j. auto.
  - intros (j' & [= <-] & ->). reflexivity.
  - discriminate.
  - intros (j' & Hj' & _). discriminate.
Qed.

(** C7.  A job is built with its [removed] flag false, and it is built
    whenever it can be named: from a name that is not empty, or from a
    callable that has a [__name__].  On a job with a handle that the
    scheduler removes, [schedule_removal] returns, the scheduler is as the
    removal left it, and the flag then reads true; and a call of
    [schedule_removal] that returns is such a call.  Once the flag reads
    true it reads true after any sequence of calls of methods of [Job] and
    [JobQueue]. *)
Theorem removed_is_monotonic :
  (forall f c n h me, Job__init__ f c n h = Ok me -> _removed me = false) /\
  (forall f c h ch s, exists me,
     Job__init__ f c (Some (String ch s)) h = Ok me /\
     name me = String ch s /\ _removed me = false) /\
  (forall f c n h s, __name__ f = Ok s ->
     exists me, Job__init__ f c n h = Ok me /\ _removed me = false) /\
  (forall self me h e' (w : World E),
     heap w !! self = Some me ->
     job me = Some h ->
     aps_remove h (scheduler (queue w)) = (Ok tt, e') ->
     fst (schedule_removal self w) = Ok tt /\
     scheduler (queue (after (schedule_removal self) w)) = e' /\
     fst (removed self (after (schedule_removal self) w)) = Ok true) /\
  (forall self (w : World E),
     fst (schedule_removal self w) = Ok tt ->
     exists me h e',
       heap w !! self = Some me /\
       job me = Some h /\
       aps_remove h (scheduler (queue w)) = (Ok tt, e')) /\
  (forall (ops : list op) self (w : World E),
     fst (removed self w) = Ok true ->
     fst (removed self (exec_all ops w)) = Ok true).
Proof.
  split; [|split; [|split; [|split; [|split]]]].
  - intros f c n h me. unfold Job__init__.
    destruct (name_or n f); [|discriminate]. intros [= <-]. reflexivity.
  - intros f c h ch s. eexists. repeat split.
  - intros f c n h s Hs. unfold Job__init__.
    destruct n as [[|ch n]|]; simpl; rewrite ?Hs; eexists; split; reflexivity.
  - intros self me h e' w Hme Hjob Hrm.
    unfold after, schedule_removal, bind, deref, on_handle.
    rewrite Hme, Hjob. rewrite (engine_eq _ _ _ _ Hrm).
    rewrite (assign_eq self _ (set_scheduler e' w) me Hme). simpl.
    split; [reflexivity|]. split; [reflexivity|].
    apply removed_true. eexists. split.
    + simpl. apply (lookup_assigned _ me). exact Hme.
    + reflexivity.
  - intros self w. unfold after, schedule_removal, bind, deref, on_handle.
    destruct (heap w !! self) as [me|] eqn:Hme; [|discriminate].
    destruct (job me) as [h|] eqn:Hjob; [|discriminate].
    destruct (aps_remove h (scheduler (queue w))) as [r e'] eqn:Hrm.
    rewrite (engine_eq _ _ _ _ Hrm).
    destruct r as [[]|exc]; [|discriminate].
    intros _. exists me, h, e'. auto.
  - intros ops self w Hflag. apply removed_true in Hflag as (j & Hj & Hr).
    destruct (exec_all_keeps_removed ops w self j Hj) as (j' & Hj' & Hkeep).
    apply removed_true. exists j'. auto.
Qed.

End Properties.

(* ================================================================== *)
(** ** The statements on the concrete world                            *)
(* ================================================================== *)

Import Sample.

(** A callback that raises [KeyboardInterrupt]: [run] lets it reach the
    caller and reports nothing to the host; the hook has run once. *)
Lemma run_propagates_KeyboardInterrupt :
  fst (__call__ interrupting 2%nat []) = Raise (Exn KeyboardInterrupt "") /\
  fst (run 2%nat host w_jobs) = Raise (Exn KeyboardInterrupt "") /\
  reports (log (after (run 2%nat host) w_jobs)) = [] /\
  hook_calls (log (after (run 2%nat host) w_jobs)) = 1%nat.
Proof. repeat split. Qed.

(** The callback that raises a [ValueError], run on the sample host: the
    error is reported once, the hook runs once, and [run] returns. *)
Lemma run_reports_and_persists_witness :
  heap w_jobs !! 1%nat = Some (job_of failing "failing") /\
  exists evs,
    log (after (run 1%nat host) w_jobs) = log w_jobs ++ evs /\
    hook_calls evs = 1%nat /\
    callback_calls evs = [(failing, 1%nat)] /\
    reports evs = [(Exn ValueError "boom", 1%nat)] /\
    fst (run 1%nat host w_jobs) = Ok tt.
Proof.
  split; [reflexivity|].
  destruct (run_reports_and_persists 1%nat _ host w_jobs eq_refl)
    as (_ & evs & Hlog & Hhook & _ & Hctx).
  exists evs. split; [exact Hlog|]. split; [exact Hhook|].
  destruct (Hctx 1%nat [] eq_refl) as [Hcalls Hcb].
  split; [exact Hcalls|].
  exact (Hcb (Raise (Exn ValueError "boom")) [] eq_refl).
Defined.



(** Ten past midnight without timezone, asked for at 00:16:40 UTC of day
    0: today is day 0 in the timezone of the scheduler, and the result is
    ten past midnight of day 1.  Five past midnight in the zone 23 hours
    50 minutes east, asked for at the same moment: today is day 1 there,
    five past midnight of day 1 there is 00:15 UTC of day 0 and is past,
    and the result is five past midnight of day 2, in that zone. *)
Lemma parse_time_of_day_shift_witness :
  (valid_time ten_past /\
   exists res,
     fst (_parse_time_input (TTime ten_past) true w_host) = Ok (Some res) /\
     date res = 1 /\ timeofday res = 600 * SECOND /\
     dt_tzinfo res = Some pytz_utc) /\
  (valid_time five_past_east /\
   exists res,
     fst (_parse_time_input (TTime five_past_east) true w_host)
       = Ok (Some res) /\
     date res = 2 /\ timeofday res = 300 * SECOND /\
     dt_tzinfo res = Some east).
Proof.
  assert (Hnaive : valid_time ten_past)
    by (unfold valid_time, SECOND; simpl; lia).
  assert (Haware : valid_time five_past_east)
    by (unfold valid_time, SECOND; simpl; lia).
  split.
  - split; [exact Hnaive|].
    destruct (parse_time_of_day_shift ten_past w_host Hnaive)
      as (combined & res & i & Hdate & Htod & Htz & Hi & Hres & Hle & Hgt);
      [vm_compute; split; [discriminate|reflexivity]|].
    exists res. split; [exact Hres|].
    vm_compute in Hres. injection Hres as <-. repeat split.
  - split; [exact Haware|].
    destruct (parse_time_of_day_shift five_past_east w_host Haware)
      as (combined & res & i & Hdate & Htod & Htz & Hi & Hres & Hle & Hgt);
      [vm_compute; split; [discriminate|reflexivity]|].
    exists res. split; [exact Hres|].
    vm_compute in Hres. injection Hres as <-. repeat split.
Defined.

(** The two jobs of [w_two] share callback, payload and name. *)
Lemma job_equality_witness :
  (exists ja jb ha hb,
     heap w_two !! 0%nat = Some ja /\ heap w_two !! 1%nat = Some jb /\
     job ja = Some ha /\ job jb = Some hb /\
     callback ja = callback jb /\ name ja = name jb /\
     aps_id ha <> aps_id hb) /\
  fst (Job__eq__ 0%nat (VJob 1%nat) w_two) = Ok false /\
  fst (Job__eq__ 0%nat (VJob 0%nat) w_two) = Ok true.
Proof.
  split; [do 4 eexists; repeat split; discriminate|].
  split.
  - destruct (job_equality 0%nat 1%nat _ _ _ _ w_two
                eq_refl eq_refl eq_refl eq_refl) as [(eq & Heq & Hiff) _].
    rewrite Heq. simpl. destruct eq; [|reflexivity].
    destruct Hiff as [Hid _]. specialize (Hid eq_refl). discriminate Hid.
  - destruct (job_equality 0%nat 0%nat _ _ _ _ w_two
                eq_refl eq_refl eq_refl eq_refl) as [(eq & Heq & Hiff) _].
    rewrite Heq. simpl. destruct Hiff as [_ Hid]. rewrite (Hid eq_refl).
    reflexivity.
Defined.

(** A thousand billion seconds from now is past the year 9999: the
    resolver raises, where the claim has it return now + s. *)
Lemma resolver_out_of_range :
  timedelta_seconds (PyInt (10 ^ 12)) = Ok (10 ^ 12 * SECOND) /\
  fst (_parse_time_input (TNumber (PyInt (10 ^ 12))) false w_host)
    = Raise (Exn OverflowError "date value out of range").
Proof. split; reflexivity. Qed.

(** Five seconds from now, on the sample host, whose clock reads 1000 s
    and whose scheduler is in UTC. *)
Lemma parse_relative_witness :
  fst (_parse_time_input (TNumber (PyInt 5)) false w_host)
    = Ok (Some {| wall := 1005 * SECOND; dt_tzinfo := Some pytz_utc |}) /\
  fst (_parse_time_input (TTimedelta (MAXORDINAL * DAY)) false w_host)
    = Raise (Exn OverflowError "date value out of range").
Proof.
  destruct (parse_relative false w_host) as (_ & Hint & _ & Hdelta).
  split.
  - destruct (Hint 5) as [Hfits _].
    destruct Hfits as [Hres _];
      [vm_compute; split; [discriminate|reflexivity]
      |vm_compute; split; [discriminate|reflexivity]|].
    exact Hres.
  - destruct (Hdelta (MAXORDINAL * DAY)) as [_ Hover].
    destruct Hover as (e & Hraise & Hcls);
      [vm_compute; intros [_ H]; discriminate H|].
    rewrite Hraise. vm_compute in Hraise. injection Hraise as <-. reflexivity.
Defined.

(** A naive [datetime] as [first] with [last] an hour from now, on the
    sample host. *)
Lemma run_repeating_naive_first_TypeError_witness :
  dt_tzinfo naive_instant = None /\
  fst (run_repeating returning (IntervalNumber (PyInt 10))
         (TDatetime naive_instant) (TTimedelta (3600 * SECOND)) "payload"
         None None w_host)
    = Raise (Exn TypeError
               "can't compare offset-naive and offset-aware datetimes") /\
  fst (jobs (after (run_repeating returning (IntervalNumber (PyInt 10))
                      (TDatetime naive_instant) (TTimedelta (3600 * SECOND))
                      "payload" None None) w_host)) = Ok [].
Proof.
  split; [reflexivity|].
  destruct (run_repeating_naive_first_TypeError returning
              (IntervalNumber (PyInt 10)) naive_instant (3600 * SECOND)
              "payload" None None w_host (job_of returning "returning"))
    as [Hrun Hsched];
    [reflexivity|reflexivity|vm_compute; split; [discriminate|reflexivity]|].
  split; [exact Hrun|].
  unfold jobs, bind, engine, after. rewrite Hsched. reflexivity.
Defined.

(** Removing the first job of [w_two]: the call returns, the flag reads
    true, and it reads true after the job is resumed, another job is
    scheduled, and removal is asked for again. *)
Lemma removed_is_monotonic_witness :
  fst (removed 0%nat w_two) = Ok false /\
  fst (schedule_removal 0%nat w_two) = Ok tt /\
  fst (removed 0%nat (after (schedule_removal 0%nat) w_two)) = Ok true /\
  fst (removed 0%nat
         (exec_all [OpSetEnabled 0%nat true;
                    OpRunOnce returning (TNumber (PyInt 5)) "payload" None
                      None;
                    OpScheduleRemoval 0%nat]
            (after (schedule_removal 0%nat) w_two))) = Ok true.
Proof.
  split; [reflexivity|].
  destruct removed_is_monotonic as (_ & _ & _ & Hremove & _ & Hstays).
  destruct (Hremove 0%nat
              (with_job {| aps_id := "0"; func := 0%nat |}
                 (job_of returning "returning"))
              {| aps_id := "0"; func := 0%nat |}
              (snd (aps_remove {| aps_id := "0"; func := 0%nat |}
                      (scheduler (queue w_two))))
              w_two) as (Hret & _ & Hflag);
    [reflexivity|reflexivity|reflexivity|].
  split; [exact Hret|]. split; [exact Hflag|].
  apply Hstays. exact Hflag.
Defined.

(** Resuming the first job of [w_two]; and resuming it once the scheduler
    has dropped its entry. *)
Lemma enabled_setter_witness :
  heap w_two !! 0%nat
    = Some (with_job {| aps_id := "0"; func := 0%nat |}
              (job_of returning "returning")) /\
  (fst (set_enabled 0%nat true w_two) = Ok tt /\
   fst (enabled 0%nat (after (set_enabled 0%nat true) w_two)) = Ok true) /\
  (fst (set_enabled 0%nat true w_dropped)
     = Raise (job_lookup_error "0") /\
   fst (enabled 0%nat (after (set_enabled 0%nat true) w_dropped)) = Ok false).
Proof.
  split; [reflexivity|]. split.
  - exact (proj2 (enabled_setter 0%nat _ _ true w_two eq_refl eq_refl)).
  - exact (proj2 (enabled_setter 0%nat _ _ true w_dropped eq_refl eq_refl)).
Defined.

(** Removing the first job of [w_two] once the scheduler has dropped its
    entry: the scheduler raises, and the flag stays false. *)
Lemma schedule_removal_atomic_witness :
  heap w_dropped !! 0%nat
    = Some (with_job {| aps_id := "0"; func := 0%nat |}
              (job_of returning "returning")) /\
  fst (schedule_removal 0%nat w_dropped) = Raise (job_lookup_error "0") /\
  fst (removed 0%nat (after (schedule_removal 0%nat) w_dropped)) = Ok false.
Proof.
  split; [reflexivity|].
  destruct (schedule_removal_atomic 0%nat _ w_dropped eq_refl eq_refl)
    as [Hraise _].
  apply (Hraise {| aps_id := "0"; func := 0%nat |} (job_lookup_error "0")
           (scheduler (queue w_dropped))); vm_compute; reflexivity.
Defined.

(** On the sample host, a naive [datetime] is registered under UTC, the
    timezone of the scheduler. *)
Lemma naive_in_queue_timezone_witness :
  dt_tzinfo naive_instant = None /\
  _dispatcher (queue w_host) = Some 0%nat /\
  hosts w_host !! 0%nat = Some host /\
  (e_request <$> t_entries (scheduler (queue (after
     (run_once returning (TDatetime naive_instant) "payload" None None)
     w_host)))) =
  [{| req_func := 0%nat; req_name := "returning";
      req_trigger := TriggerDate naive_instant pytz_utc;
      req_args := host; req_kwargs := [] |}].
Proof.
  repeat (split; [reflexivity|]).
  destruct (naive_in_queue_timezone returning naive_instant "payload" None
              None 0%nat host (job_of returning "returning") w_host
              eq_refl eq_refl eq_refl eq_refl)
    as (_ & _ & Hrun & _).
  unfold after at 1. rewrite Hrun. reflexivity.
Defined.

(* ================================================================== *)
(** ** Further properties of the methods                               *)
(* ================================================================== *)

Section Coverage.
Context `{Ext : Externals} {E : Type} `{Eng : !TimerEngine E}.

Lemma Job__init___raises (f : Callback) (c : PyObj) (n : option string)
    (h : option APSJob) (e : exn) :
  Job__init__ f c n h = Raise e -> name_or n f = Raise e.
Proof.
  unfold Job__init__. destruct (name_or n f); [discriminate|congruence].
Qed.

(** A callable that cannot be named stops every [run_*] method before
    anything is built. *)
Lemma run_unnamed (f : Callback) (c : PyObj) (n : option string)
    (kw : option JSONDict) (e : exn) (w : World E) :
  Job__init__ f c n None = Raise e ->
  (forall when, run_once f when c n kw w = (Raise e, w)) /\
  (forall i first last,
     run_repeating f i first last c n kw w = (Raise e, w)) /\
  (forall when day, run_monthly f when day c n kw w = (Raise e, w)) /\
  (forall t days, run_daily f t days c n kw w = (Raise e, w)) /\
  (forall kw', run_custom f kw' c n w = (Raise e, w)).
Proof.
  intros Hme. apply Job__init___raises in Hme.
  repeat split; intros;
    unfold run_once, run_repeating, run_monthly, run_daily, run_custom,
      bind, lift;
    rewrite Hme; reflexivity.
Qed.

(** The head shared by the [run_*] methods, up to the new job object. *)
Ltac named_job Hme :=
  let Hname := fresh "Hname" in
  let Hagain := fresh "Hagain" in
  destruct (Job__init___again _ _ _ _ _ Hme) as [Hname Hagain];
  unfold bind at 1; unfold lift at 1; rewrite Hname;
  unfold bind at 1; unfold lift at 1; rewrite Hagain;
  unfold bind at 1; unfold alloc at 1; cbv beta iota zeta.

(** [run_once], by the outcome of its steps. *)
Lemma run_once_steps (f : Callback) (when : time_input) (c : PyObj)
    (n : option string) (kw : option JSONDict) (w : World E) (me : Job) :
  Job__init__ f c n None = Ok me ->
  let w1 := after (alloc me) w in
  let w2 := after (_parse_time_input when true) w1 in
  run_once f when c n kw w =
    match fst (_parse_time_input when true w1) with
    | Raise e => (Raise e, w2)
    | Ok date_time =>
        match fst (dispatcher w) with
        | Raise e => (Raise e, w2)
        | Ok d =>
            match date_time with
            | None => (Raise (none_has_no "tzinfo"), w2)
            | Some dt =>
                register (length (heap w))
                  {| req_func := length (heap w);
                     req_name := name me;
                     req_trigger :=
                       TriggerDate dt
                         (tz_or (dt_tzinfo dt)
                            (sched_timezone (scheduler (queue w))));
                     req_args := d;
                     req_kwargs := kwargs_or_empty kw |} w2
            end
        end
    end /\
  queue w2 = queue w /\ hosts w2 = hosts w /\ heap w2 = heap w ++ [me].
Proof.
  intros Hme w1 w2.
  destruct (parse_frame when true w1) as (r & k & Hp).
  assert (Hw2 : w2 = set_reads k w1)
    by (subst w2; unfold after; rewrite Hp; reflexivity).
  split; [|rewrite Hw2; repeat split; reflexivity].
  rewrite Hp, Hw2. unfold run_once. named_job Hme.
  change (set_heap (heap w ++ [me]) w) with w1.
  unfold bind at 1. rewrite Hp. destruct r as [date_time|e]; [|reflexivity].
  unfold bind at 1.
  rewrite (dispatcher_frame w (set_reads k w1)) by reflexivity.
  simpl. destruct (fst (dispatcher w)) as [d|e]; [|reflexivity].
  destruct date_time as [dt|]; reflexivity.
Qed.

(** [run_monthly], [run_daily] and [run_custom], by the outcome of the
    read of [dispatcher]. *)
Lemma run_cron_steps (f : Callback) (c : PyObj) (n : option string)
    (kw : option JSONDict) (w : World E) (me : Job) :
  Job__init__ f c n None = Ok me ->
  let w1 := after (alloc me) w in
  let tail trigger kwargs :=
    match fst (dispatcher w) with
    | Raise e => (Raise e, w1)
    | Ok d =>
        register (length (heap w))
          {| req_func := length (heap w);
             req_name := name me;
             req_trigger := trigger;
             req_args := d;
             req_kwargs := kwargs |} w1
    end in
  let tz := sched_timezone (scheduler (queue w)) in
  (forall when day,
     run_monthly f when day c n kw w =
       tail (TriggerCronDay (if day =? -1 then DayLast else DayNumber day)
               (hour when) (minute when) (second when)
               (tz_or (t_tzinfo when) tz))
         (kwargs_or_empty kw)) /\
  (forall t days,
     run_daily f t days c n kw w =
       tail (TriggerCronWeek (String.concat "," (pretty <$> days))
               (hour t) (minute t) (second t) (tz_or (t_tzinfo t) tz))
         (kwargs_or_empty kw)) /\
  (forall kw', run_custom f kw' c n w = tail TriggerCustom kw').
Proof.
  intros Hme w1 tail tz. subst tail.
  repeat split; intros;
    unfold run_monthly, run_daily, run_custom; named_job Hme;
    change (set_heap (heap w ++ [me]) w) with w1;
    unfold bind at 1;
    rewrite (dispatcher_frame w w1) by reflexivity;
    simpl; destruct (fst (dispatcher w)) as [d|e]; reflexivity.
Qed.

(** [run_repeating], by the outcome of its steps. *)
Lemma run_repeating_steps (f : Callback) (interval : interval_input)
    (first last : time_input) (c : PyObj) (n : option string)
    (kw : option JSONDict) (w : World E) (me : Job) :
  Job__init__ f c n None = Ok me ->
  let w1 := after (alloc me) w in
  let w2 := after (_parse_time_input first false) w1 in
  let w3 := after (_parse_time_input last false) w2 in
  run_repeating f interval first last c n kw w =
    match fst (_parse_time_input first false w1) with
    | Raise e => (Raise e, w2)
    | Ok dt_first =>
        match fst (_parse_time_input last false w2) with
        | Raise e => (Raise e, w3)
        | Ok dt_last =>
            match fst (check_last_first dt_last dt_first w3) with
            | Raise e => (Raise e, w3)
            | Ok _ =>
                match fst (dispatcher w) with
                | Raise e => (Raise e, w3)
                | Ok d =>
                    register (length (heap w))
                      {| req_func := length (heap w);
                         req_name := name me;
                         req_trigger :=
                           TriggerInterval dt_first dt_last
                             match interval with
                             | IntervalTimedelta td =>
                                 PyFloat (total_seconds td)
                             | IntervalNumber s => s
                             end;
                         req_args := d;
                         req_kwargs := kwargs_or_empty kw |} w3
                end
            end
        end
    end /\
  queue w2 = queue w /\ hosts w2 = hosts w /\ heap w2 = heap w ++ [me] /\
  queue w3 = queue w /\ hosts w3 = hosts w /\ heap w3 = heap w ++ [me].
Proof.
  intros Hme w1 w2 w3.
  destruct (parse_frame first false w1) as (r1 & k1 & H1).
  assert (Hw2 : w2 = set_reads k1 w1)
    by (subst w2; unfold after; rewrite H1; reflexivity).
  destruct (parse_frame last false w2) as (r2 & k2 & H2).
  assert (Hw3 : w3 = set_reads k2 w2)
    by (subst w3; unfold after; rewrite H2; reflexivity).
  split; [|rewrite Hw3, Hw2; repeat split; reflexivity].
  unfold run_repeating. named_job Hme.
  change (set_heap (heap w ++ [me]) w) with w1.
  unfold bind at 1. rewrite H1. rewrite <- Hw2.
  destruct r1 as [dt_first|e]; [|reflexivity]. simpl.
  unfold bind at 1. rewrite H2. rewrite <- Hw3.
  destruct r2 as [dt_last|e]; [|reflexivity]. simpl.
  unfold bind at 1.
  assert (Hcheck : check_last_first dt_last dt_first w3 =
                   (fst (check_last_first dt_last dt_first w3), w3)).
  { unfold check_last_first, bind, lift.
    destruct dt_last as [l|], dt_first as [fi|]; try reflexivity.
    destruct (dt_lt l fi) as [[]|e]; reflexivity. }
  rewrite Hcheck. simpl.
  destruct (fst (check_last_first dt_last dt_first w3)) as [[]|e];
    [|reflexivity].
  unfold bind at 1.
  rewrite (dispatcher_frame w w3) by (rewrite Hw3, Hw2; reflexivity).
  simpl. destruct (fst (dispatcher w)) as [d|e]; reflexivity.
Qed.


Lemma insert_last {A} (l : list A) (x y : A) :
  <[length l := y]> (l ++ [x]) = l ++ [y].
Proof.
  rewrite insert_app_r_alt by lia. rewrite Nat.sub_diag. reflexivity.
Qed.

(** The tail of a [run_*] method, on the world [w1] that holds the new job
    [me] at the end of its store. *)
Lemma register_outcome (me : Job) (req : add_job_request) (w w1 : World E) :
  heap w1 = heap w ++ [me] ->
  queue w1 = queue w ->
  req_func req = length (heap w) ->
  req_name req = name me ->
  run_outcome me w (register (length (heap w)) req w1).
Proof.
  intros Hheap Hq Hfunc Hname.
  assert (Hj : heap w1 !! length (heap w) = Some me)
    by (rewrite Hheap; apply list_lookup_middle; reflexivity).
  pose proof (register_spec (length (heap w)) req me w1 Hj) as Hreg.
  destruct (sched_add_job req (scheduler (queue w1))) as [[h|e] e'] eqn:Hadd;
    rewrite Hreg; unfold run_outcome; simpl; [|exact Hheap].
  split; [reflexivity|]. exists h, req.
  split; [rewrite Hheap; apply insert_last|].
  split; [rewrite <- Hq; exact Hadd|]. auto.
Qed.


(** X2.  [Job(callback, context, name)] holds the callback and the payload
    given, the name given or, when that is [None] or empty, the
    [__name__] of the callable, both flags false and no handle; when the
    [__name__] is wanted and the callable has none, no job is built.  A
    [run_*] method that cannot name the callable raises that error and
    changes nothing.  Otherwise, whatever its arguments and its outcome,
    it adds that one job object to the store and leaves the others as they
    were: when it returns, it returns the object, now holding the handle
    the scheduler returned for an entry that invokes the object under
    its name; when it raises, the object is left without a handle. *)
Theorem run_adds_one_job (f : Callback) (c : PyObj) (n : option string)
    (kw : option JSONDict) (w : World E) :
  (forall me, Job__init__ f c n None = Ok me ->
     (callback me = f /\ context me = c /\ _removed me = false /\
      _enabled me = false /\ job me = None /\
      match n with
      | Some (String ch s) => name me = String ch s
      | _ => __name__ f = Ok (name me)
      end) /\
     (forall when, run_outcome me w (run_once f when c n kw w)) /\
     (forall i first last,
        run_outcome me w (run_repeating f i first last c n kw w)) /\
     (forall when day, run_outcome me w (run_monthly f when day c n kw w)) /\
     (forall t days, run_outcome me w (run_daily f t days c n kw w)) /\
     (forall kw', run_outcome me w (run_custom f kw' c n w))) /\
  (forall e, Job__init__ f c n None = Raise e ->
     match n with
     | Some (String ch s) => False
     | _ => __name__ f = Raise e
     end /\
     (forall when, run_once f when c n kw w = (Raise e, w)) /\
     (forall i first last,
        run_repeating f i first last c n kw w = (Raise e, w)) /\
     (forall when day, run_monthly f when day c n kw w = (Raise e, w)) /\
     (forall t days, run_daily f t days c n kw w = (Raise e, w)) /\
     (forall kw', run_custom f kw' c n w = (Raise e, w))).
Proof.
  split.
  - intros me Hme. split.
    { unfold Job__init__ in Hme.
      destruct (name_or n f) as [nm|] eqn:Hn; [|discriminate].
      injection Hme as <-. simpl. repeat split.
      destruct n as [[|ch s]|]; simpl in Hn; congruence. }
    assert (Hraise : forall (x : exn) (w' : World E),
              heap w' = heap w ++ [me] ->
              run_outcome me w (Raise x, w'))
      by (intros x w' Hh; exact Hh).
    destruct (run_cron_steps f c n kw w me Hme) as (Hmonthly & Hdaily & Hcustom).
    split; [|split; [|split; [|split]]].
    + intros when.
      destruct (run_once_steps f when c n kw w me Hme) as (Heq & Hq & _ & Hh).
      rewrite Heq.
      destruct (fst (_parse_time_input when true _)) as [r|];
        [|apply Hraise, Hh].
      destruct (fst (dispatcher w)); [|apply Hraise, Hh].
      destruct r; [|apply Hraise, Hh].
      apply register_outcome; first [exact Hh|exact Hq|reflexivity].
    + intros i first last.
      destruct (run_repeating_steps f i first last c n kw w me Hme)
        as (Heq & _ & _ & Hh2 & Hq & _ & Hh).
      rewrite Heq.
      destruct (fst (_parse_time_input first false _)) as [r1|];
        [|apply Hraise, Hh2].
      destruct (fst (_parse_time_input last false _)) as [r2|];
        [|apply Hraise, Hh].
      destruct (fst (check_last_first r2 r1 _)); [|apply Hraise, Hh].
      destruct (fst (dispatcher w)); [|apply Hraise, Hh].
      apply register_outcome; first [exact Hh|exact Hq|reflexivity].
    + intros when day. rewrite Hmonthly.
      destruct (fst (dispatcher w)); [|apply Hraise; reflexivity].
      apply register_outcome; reflexivity.
    + intros t days. rewrite Hdaily.
      destruct (fst (dispatcher w)); [|apply Hraise; reflexivity].
      apply register_outcome; reflexivity.
    + intros kw'. rewrite Hcustom.
      destruct (fst (dispatcher w)); [|apply Hraise; reflexivity].
      apply register_outcome; reflexivity.
  - intros e Hme. split; [|exact (run_unnamed f c n kw e w Hme)].
    apply Job__init___raises in Hme.
    destruct n as [[|ch s]|]; simpl in Hme; congruence.
Qed.

(** X3.  When [first] and [last] both resolve to an instant and exactly one
    of the two is naive, [run_repeating] raises the [TypeError] of the
    comparison, and the scheduler is as it was. *)
Theorem run_repeating_mixed_awareness (f : Callback)
    (interval : interval_input) (first last : time_input) (c : PyObj)
    (n : option string) (kw : option JSONDict) (w : World E) (me : Job)
    (dt_first dt_last : datetime) :
  Job__init__ f c n None = Ok me ->
  let w1 := after (alloc me) w in
  let w2 := after (_parse_time_input first false) w1 in
  let w3 := after (_parse_time_input last false) w2 in
  fst (_parse_time_input first false w1) = Ok (Some dt_first) ->
  fst (_parse_time_input last false w2) = Ok (Some dt_last) ->
  (dt_tzinfo dt_first = None /\ dt_tzinfo dt_last <> None) \/
  (dt_tzinfo dt_first <> None /\ dt_tzinfo dt_last = None) ->
  run_repeating f interval first last c n kw w =
    (Raise (Exn TypeError
              "can't compare offset-naive and offset-aware datetimes"), w3) /\
  scheduler (queue w3) = scheduler (queue w).
Proof.
  intros Hme w1 w2 w3 Hfirst Hlast Hmixed.
  destruct (run_repeating_resolved f interval first last c n kw w me _ _
              Hme Hfirst Hlast) as (Hrun & Hq & _ & _).
  fold w1 w2 w3 in Hrun, Hq. rewrite Hrun, Hq.
  split; [|reflexivity].
  unfold bind, check_last_first, lift.
  rewrite (dt_lt_mixed dt_last dt_first) by tauto. reflexivity.
Qed.

(** X4.  When [first] or [last] is omitted, [run_repeating] compares
    nothing: once the other bound is resolved, whatever it is, with a host
    alive and a scheduler that accepts the entry, it returns the new job,
    the entry carrying the bounds as resolved, [None] for the one
    omitted. *)
Theorem run_repeating_open_bound (f : Callback) (interval : interval_input)
    (first last : time_input) (c : PyObj) (n : option string)
    (kw : option JSONDict) (ref : addr) (d : Dispatcher) (w : World E)
    (me : Job) (r1 r2 : option datetime) (h : APSJob) (e' : E) :
  Job__init__ f c n None = Ok me ->
  first = TNone \/ last = TNone ->
  _dispatcher (queue w) = Some ref ->
  hosts w !! ref = Some d ->
  let w1 := after (alloc me) w in
  let w2 := after (_parse_time_input first false) w1 in
  fst (_parse_time_input first false w1) = Ok r1 ->
  fst (_parse_time_input last false w2) = Ok r2 ->
  sched_add_job
    {| req_func := length (heap w);
       req_name := name me;
       req_trigger :=
         TriggerInterval r1 r2
           match interval with
           | IntervalTimedelta td => PyFloat (total_seconds td)
           | IntervalNumber s => s
           end;
       req_args := d;
       req_kwargs := kwargs_or_empty kw |}
    (scheduler (queue w)) = (Ok h, e') ->
  (r1 = None \/ r2 = None) /\
  fst (run_repeating f interval first last c n kw w) = Ok (length (heap w)) /\
  scheduler (queue (after (run_repeating f interval first last c n kw) w))
    = e'.
Proof.
  intros Hme Hopen Href Hd w1 w2 H1 H2 Hadd.
  assert (Hnone : r1 = None \/ r2 = None).
  { destruct Hopen as [-> | ->]; [left|right].
    - simpl in H1. congruence.
    - simpl in H2. congruence. }
  split; [exact Hnone|].
  destruct (run_repeating_resolved f interval first last c n kw w me r1 r2
              Hme H1 H2) as (Hrun & Hq & Hh & Hheap).
  fold w1 w2 in Hrun, Hq, Hh, Hheap.
  set (w3 := after (_parse_time_input last false) w2) in *.
  unfold after at 1. rewrite Hrun.
  assert (Hcheck : check_last_first r2 r1 w3 = (Ok tt, w3))
    by (destruct Hnone as [-> | ->]; [destruct r2|]; reflexivity).
  unfold bind at 1 3. rewrite Hcheck. unfold bind.
  rewrite (dispatcher_alive ref d w w3 Href Hd Hq Hh).
  assert (Hme3 : heap w3 !! length (heap w) = Some me)
    by (rewrite Hheap; apply list_lookup_middle; reflexivity).
  match goal with
  | |- context [register ?a ?req ?w'] =>
      pose proof (register_spec a req me w' Hme3) as Hreg
  end.
  rewrite Hq, Hadd in Hreg. rewrite Hreg. split; reflexivity.
Qed.

(** X5.  Resolved with [shift_day] false, as [run_repeating] resolves
    [first] and [last], a time of day is today's, whether or not that
    instant has passed, today being read in the timezone of the time of
    day if it has one and in that of the scheduler otherwise; the clock is
    read once. *)
Theorem parse_time_of_day_today (t : time) (w : World E) :
  valid_time t ->
  let tz := sched_timezone (scheduler (queue w)) in
  let clock := utc_clock (reads w) in
  let today :=
    match t_tzinfo t with
    | Some own => (clock + fromutc_offset own clock) `div` DAY
    | None => (clock + fromutc_offset tz clock) `div` DAY
    end in
  exists res,
    _parse_time_input (TTime t) false w
      = (Ok (Some res), set_reads (S (reads w)) w) /\
    wall res = today * DAY + time_us t /\
    date res = today /\
    timeofday res = time_us t /\
    dt_tzinfo res =
      Some (match t_tzinfo t with
            | Some own => own
            | None => with_offset tz (localize_offset tz (wall res))
            end).
Proof.
  intros Ht tz clock today.
  pose proof (date_combine today t Ht) as Hdate.
  pose proof (timeofday_combine today t Ht) as Htod.
  assert (Htoday : date (at_utc (tz_or (t_tzinfo t) tz) clock) = today)
    by (subst today; destruct (t_tzinfo t); reflexivity).
  unfold _parse_time_input, bind, scheduler_timezone, datetime_now, ret.
  simpl. fold tz. fold clock. rewrite Htoday.
  destruct (t_tzinfo t) as [own|] eqn:Hown; simpl; rewrite ?Hown;
    eexists; (split; [reflexivity|]); (split; [reflexivity|]);
    (split; [exact Hdate|]); (split; [exact Htod|]);
    simpl; rewrite ?Hown; reflexivity.
Qed.

Lemma new_timedelta_raises (us : Z) (e : exn) :
  new_timedelta us = Raise e -> exn_cls e = OverflowError.
Proof.
  unfold new_timedelta.
  repeat match goal with
    | |- context [if ?b then _ else _] => destruct b
    end; intros [= <-]; reflexivity.
Qed.

Lemma dt_add_raises (dt : datetime) (d : timedelta) (e : exn) :
  dt_add dt d = Raise e -> exn_cls e = OverflowError.
Proof.
  unfold dt_add.
  match goal with
  | |- context [if ?b then _ else _] => destruct b
  end; intros [= <-]; reflexivity.
Qed.

(** X6.  Whatever its outcome, the resolver changes nothing in the world
    but the number of clock reads, of which it makes at most two, and none
    for [None] and for a [datetime], which it returns as they are, a naive
    [datetime] naive.  For the other inputs, what it returns is aware, and
    what it raises is an [OverflowError] of the library or the error the
    library raised on a float. *)
Theorem parse_awareness (t : time_input) (shift : bool) (w : World E) :
  exists r k,
    _parse_time_input t shift w = (r, set_reads (reads w + k) w) /\
    (k <= 2)%nat /\
    match t with
    | TNone => r = Ok None /\ k = 0%nat
    | TDatetime dt => r = Ok (Some dt) /\ k = 0%nat
    | _ =>
        match r with
        | Ok res => exists dt tz, res = Some dt /\ dt_tzinfo dt = Some tz
        | Raise e =>
            exn_cls e = OverflowError \/
            exists x, t = TNumber (PyFloat x) /\ float_us x = Raise e
        end
    end.
Proof.
  destruct t as [|n|d|t|dt]; simpl.
  - exists (Ok None), 0%nat. unfold ret. rewrite Nat.add_0_r, set_reads_same.
    repeat split. lia.
  - unfold bind, _tz_now, scheduler_timezone, datetime_now, lift, ret. simpl.
    destruct (timedelta_seconds n) as [d|e] eqn:Hd; simpl.
    + match goal with
      | |- context [dt_add ?a ?b] => destruct (dt_add a b) as [res|e] eqn:Hadd
      end; simpl; eexists _, 1%nat; rewrite Nat.add_1_r;
        (split; [reflexivity|]); (split; [lia|]).
      * unfold dt_add in Hadd.
        match type of Hadd with
        | (if ?b then _ else _) = _ => destruct b
        end; [|discriminate]. injection Hadd as <-.
        eexists _, _. split; reflexivity.
      * left. exact (dt_add_raises _ _ _ Hadd).
    + eexists _, 1%nat. rewrite Nat.add_1_r.
      split; [reflexivity|]. split; [lia|].
      destruct n as [k|x]; simpl in Hd.
      * left. exact (new_timedelta_raises _ _ Hd).
      * destruct (float_us x) as [us|e0] eqn:Hx.
        -- left. exact (new_timedelta_raises _ _ Hd).
        -- right. exists x. split; [reflexivity|congruence].
  - unfold bind, _tz_now, scheduler_timezone, datetime_now, lift, ret. simpl.
    match goal with
    | |- context [dt_add ?a ?b] => destruct (dt_add a b) as [res|e] eqn:Hadd
    end; simpl; eexists _, 1%nat; rewrite Nat.add_1_r;
      (split; [reflexivity|]); (split; [lia|]).
    + unfold dt_add in Hadd.
      match type of Hadd with
      | (if ?b then _ else _) = _ => destruct b
      end; [|discriminate]. injection Hadd as <-.
      eexists _, _. split; reflexivity.
    + left. exact (dt_add_raises _ _ _ Hadd).
  - unfold bind, scheduler_timezone, datetime_now, lift, ret. simpl.
    set (combined := match t_tzinfo t with
                     | Some _ => _
                     | None => _
                     end).
    assert (Haware : exists own, dt_tzinfo combined = Some own)
      by (subst combined; destruct (t_tzinfo t) eqn:Htz; simpl;
          rewrite ?Htz; eexists; reflexivity).
    destruct Haware as (own & Hown).
    destruct shift.
    + unfold dt_le, dt_compare. rewrite Hown. simpl.
      match goal with
      | |- context [?a ?= ?b] => destruct (a ?= b)
      end; simpl;
        try (eexists _, 2%nat;
             (split; [replace (reads w + 2)%nat with (S (S (reads w))) by lia;
                      reflexivity|]);
             (split; [lia|]); eexists _, _; split; [reflexivity|exact Hown]).
      all: destruct (dt_add combined (timedelta_days 1)) as [res|e] eqn:Hadd;
        simpl; eexists _, 2%nat;
        (split; [replace (reads w + 2)%nat with (S (S (reads w))) by lia;
                 reflexivity|]);
        (split; [lia|]).
      all: try (left; exact (dt_add_raises _ _ _ Hadd)).
      all: unfold dt_add in Hadd;
        match type of Hadd with
        | (if ?b then _ else _) = _ => destruct b
        end; [|discriminate]; injection Hadd as <-;
        eexists _, _; split; [reflexivity|exact Hown].
    + eexists _, 1%nat. rewrite Nat.add_1_r.
      split; [reflexivity|]. split; [lia|].
      eexists _, _. split; [reflexivity|exact Hown].
  - exists (Ok (Some dt)), 0%nat. unfold ret.
    rewrite Nat.add_0_r, set_reads_same. repeat split. lia.
Qed.

(** X7.  A job without a handle is inert: [schedule_removal] and the
    setter of [enabled] raise the [AttributeError] of the missing attribute
    of [None]; [next_t], whose getter raises such an error, and comparing
    the job with a job raise the [AttributeError] of [Job.__getattr__];
    and none of them changes anything.  Its flags can still be read. *)
Theorem job_without_handle (self : addr) (me : Job) (w : World E) :
  heap w !! self = Some me ->
  job me = None ->
  schedule_removal self w =
    (Raise (Exn AttributeError
              "'NoneType' object has no attribute 'remove'"), w) /\
  set_enabled self true w =
    (Raise (Exn AttributeError
              "'NoneType' object has no attribute 'resume'"), w) /\
  set_enabled self false w =
    (Raise (Exn AttributeError
              "'NoneType' object has no attribute 'pause'"), w) /\
  next_t self w =
    (Raise (Exn AttributeError
              "Neither 'telegram.ext.Job' nor 'apscheduler.job.Job' has attribute 'next_t'"),
     w) /\
  (forall other,
     Job__eq__ self (VJob other) w =
       (Raise (Exn AttributeError
                 "Neither 'telegram.ext.Job' nor 'apscheduler.job.Job' has attribute 'id'"),
        w)) /\
  removed self w = (Ok (_removed me), w) /\
  enabled self w = (Ok (_enabled me), w).
Proof.
  intros Hme Hjob.
  unfold schedule_removal, set_enabled, next_t, Job__eq__, getattr_id,
    removed, enabled, bind, deref.
  rewrite Hme, Hjob. repeat split.
Qed.

(** X8.  [schedule_removal] and the setter of [enabled] change nothing of
    the store but one flag of the job they are called on: every other
    object is as it was, and the job keeps its callback, payload, name and
    handle; [schedule_removal] keeps [enabled] and the setter keeps
    [removed].  Neither reads the clock nor calls host code. *)
Theorem flag_setters_frame (self : addr) (me : Job) (status : bool)
    (w : World E) :
  heap w !! self = Some me ->
  let w1 := after (schedule_removal self) w in
  let w2 := after (set_enabled self status) w in
  (forall other : addr, other <> self ->
     heap w1 !! other = heap w !! other /\
     heap w2 !! other = heap w !! other) /\
  (exists j1, heap w1 !! self = Some j1 /\ same_but_flags me j1 /\
              _enabled j1 = _enabled me) /\
  (exists j2, heap w2 !! self = Some j2 /\ same_but_flags me j2 /\
              _removed j2 = _removed me) /\
  (reads w1, user w1, log w1, hosts w1) = (reads w, user w, log w, hosts w) /\
  (reads w2, user w2, log w2, hosts w2) = (reads w, user w, log w, hosts w).
Proof.
  intros Hme w1 w2. subst w1 w2.
  unfold after, schedule_removal, set_enabled, bind, deref, on_handle, raise.
  rewrite Hme.
  destruct (job me) as [h|] eqn:Hjob.
  - destruct (aps_remove h (scheduler (queue w))) as [[[]|e1] e1'] eqn:Hrm;
      rewrite (engine_eq _ _ _ _ Hrm);
      (destruct status;
       [destruct (aps_resume h (scheduler (queue w))) as [[[]|e2] e2'] eqn:Hen
       |destruct (aps_pause h (scheduler (queue w))) as [[[]|e2] e2'] eqn:Hen];
       rewrite (engine_eq _ _ _ _ Hen));
      rewrite ?(assign_eq self _ (set_scheduler e1' w) me Hme),
        ?(assign_eq self _ (set_scheduler e2' w) me Hme); simpl;
      rewrite ?(lookup_assigned _ _ _ _ Hme);
      (split;
       [intros other Hne; rewrite ?list_lookup_insert_ne by congruence;
        split; reflexivity|]);
      repeat split; eexists; repeat split; try eassumption; reflexivity.
  - destruct status; simpl;
      (split; [intros other Hne; split; reflexivity|]);
      repeat split; eexists; repeat split; try eassumption; reflexivity.
Qed.

(** The next call into host code in the goal, replaced by its outcome. *)
Tactic Notation "host_call" "as" ident(r) ident(u) ident(H) :=
  match goal with
  | |- context [call ?ev ?f ?w] =>
      destruct (f (user w)) as [r u] eqn:H;
      rewrite (call_eq ev f w r u H);
      simpl in H
  end.

(** X9.  [Job.run] touches what host code touches and nothing else: the
    store of jobs with their flags, the queue with its scheduler, the live
    dispatchers and the clock are as they were, whatever the callback and
    the hooks do. *)
Theorem run_frame (self : addr) (d : Dispatcher) (w : World E) :
  let w' := after (run self d) w in
  heap w' = heap w /\ queue w' = queue w /\ hosts w' = hosts w /\
  reads w' = reads w.
Proof.
  unfold after, run, try_finally, try_except_Exception, bind, deref,
    run_non_blocking.
  destruct (heap w !! self) as [me|]; simpl.
  - host_call as r1 u1 H1. destruct r1 as [ctx|e1].
    + host_call as r2 u2 H2. destruct r2 as [[]|exc].
      * host_call as r4 u4 H4. destruct r4; repeat split.
      * destruct (isinstance_Exception exc).
        -- host_call as r3 u3 H3. host_call as r4 u4 H4.
           destruct r4; repeat split.
        -- host_call as r4 u4 H4. destruct r4; repeat split.
    + destruct (isinstance_Exception e1).
      * host_call as r3 u3 H3. host_call as r4 u4 H4.
        destruct r4; repeat split.
      * host_call as r4 u4 H4. destruct r4; repeat split.
  - host_call as r3 u3 H3. host_call as r4 u4 H4. destruct r4; repeat split.
Qed.

(** X10.  An exception that reaches [run] while the host builds the context
    is handled as one of the callback: if it derives from [Exception] it is
    reported once with the job attached, the callback is not called, and
    the post-run hook is called once. *)
Theorem run_reports_context_failure (self : addr) (me : Job)
    (d : Dispatcher) (w : World E) (e : exn) (u1 : HostState) :
  heap w !! self = Some me ->
  from_job d self (user w) = (Raise e, u1) ->
  isinstance_Exception e = true ->
  exists evs,
    log (after (run self d) w) = log w ++ evs /\
    callback_calls evs = [] /\
    reports evs = [(e, self)] /\
    hook_calls evs = 1%nat.
Proof.
  intros Hme Hctx Hexc.
  unfold after, run, try_finally, try_except_Exception, bind, deref,
    run_non_blocking.
  rewrite Hme, (call_eq _ _ _ _ _ Hctx), Hexc.
  host_call as r3 u3 H3. host_call as r4 u4 H4.
  destruct r4; simpl; rewrite <- !app_assoc; eexists;
    (split; [reflexivity|]); repeat split.
Qed.

(** X11.  What the post-run hook raises is what [run] raises, whatever the
    callback did and whatever was reported. *)
Theorem run_raises_what_the_hook_raises (self : addr) (d : Dispatcher)
    (w : World E) (e : exn) :
  (forall u, fst (update_persistence d u) = Raise e) ->
  fst (run self d w) = Raise e.
Proof.
  intros Hhook. unfold run, try_finally.
  match goal with
  | |- context [try_except_Exception ?b ?h w] =>
      destruct (try_except_Exception b h w) as [r w1]
  end.
  unfold call. specialize (Hhook (user w1)).
  destruct (update_persistence d (user w1)) as [r4 u4]. simpl in Hhook.
  rewrite Hhook. reflexivity.
Qed.

(** X12.  After [set_dispatcher] on a dispatcher object, reading
    [dispatcher] returns that object, also when configuring the scheduler
    raised.  The store of jobs and the clock are untouched.  The scheduler
    is configured only when the bot has defaults: with their timezone when
    they have one, with UTC when they have none. *)
Theorem set_dispatcher_then_dispatcher (d : addr) (obj : Dispatcher)
    (w : World E) :
  hosts w !! d = Some obj ->
  let w' := after (set_dispatcher d) w in
  dispatcher w' = (Ok obj, w') /\
  heap w' = heap w /\ reads w' = reads w /\
  match bot_defaults_tzinfo obj with
  | None =>
      fst (set_dispatcher d w) = Ok tt /\
      scheduler (queue w') = scheduler (queue w)
  | Some None =>
      (fst (set_dispatcher d w), scheduler (queue w')) =
      sched_configure pytz_utc (scheduler (queue w))
  | Some (Some tz) =>
      (fst (set_dispatcher d w), scheduler (queue w')) =
      sched_configure tz (scheduler (queue w))
  end.
Proof.
  intros Hobj. unfold after, set_dispatcher, dispatcher. rewrite Hobj.
  destruct (bot_defaults_tzinfo obj) as [[tz|]|]; simpl.
  - unfold engine. simpl.
    destruct (sched_configure tz (scheduler (queue w))) as [r e']. simpl.
    rewrite Hobj. repeat split.
  - unfold engine. simpl.
    destruct (sched_configure pytz_utc (scheduler (queue w))) as [r e'].
    simpl. rewrite Hobj. repeat split.
  - rewrite Hobj. repeat split.
Qed.

Lemma Job__eq__objects (a b : addr) (ja jb : Job) (w : World E) :
  heap w !! a = Some ja ->
  heap w !! b = Some jb ->
  Job__eq__ a (VJob b) w =
    (match job ja, job jb with
     | Some ha, Some hb => Ok (String.eqb (aps_id ha) (aps_id hb))
     | _, _ => Raise (no_attribute "id")
     end, w).
Proof.
  intros Ha Hb. unfold Job__eq__, getattr_id, bind, deref, raise, ret.
  rewrite Ha. destruct (job ja); [|reflexivity].
  rewrite Hb. destruct (job jb); reflexivity.
Qed.

(** X13.  On job objects, [==] gives the same outcome in both directions
    and is transitive, a job with a handle equals itself, and comparing
    with what is no job answers false without looking for a handle. *)
Theorem job_eq_equivalence (a b c : addr) (ja jb jc : Job) (w : World E) :
  heap w !! a = Some ja ->
  heap w !! b = Some jb ->
  heap w !! c = Some jc ->
  Job__eq__ a (VJob b) w = Job__eq__ b (VJob a) w /\
  (fst (Job__eq__ a (VJob b) w) = Ok true ->
   fst (Job__eq__ b (VJob c) w) = Ok true ->
   fst (Job__eq__ a (VJob c) w) = Ok true) /\
  (job ja <> None -> Job__eq__ a (VJob a) w = (Ok true, w)) /\
  Job__eq__ a VNone w = (Ok false, w) /\
  (forall o, Job__eq__ a (VObj o) w = (Ok false, w)).
Proof.
  intros Ha Hb Hc.
  rewrite (Job__eq__objects a b ja jb w Ha Hb),
    (Job__eq__objects b a jb ja w Hb Ha),
    (Job__eq__objects b c jb jc w Hb Hc),
    (Job__eq__objects a c ja jc w Ha Hc),
    (Job__eq__objects a a ja ja w Ha Ha).
  split; [|split; [|split; [|split; reflexivity]]].
  - destruct (job ja), (job jb); try reflexivity.
    rewrite String.eqb_sym. reflexivity.
  - destruct (job ja), (job jb), (job jc); simpl; try discriminate.
    intros [= H1] [= H2]. f_equal.
    apply String.eqb_eq in H1. apply String.eqb_eq in H2.
    apply String.eqb_eq. congruence.
  - destruct (job ja); [|congruence].
    intros _. rewrite String.eqb_refl. reflexivity.
Qed.

Lemma with_name_filters (name_ : string) (js : list addr) (w : World E) :
  (forall a, a ∈ js -> is_Some (heap w !! a)) ->
  with_name name_ js w = (Ok (List.filter (named w name_) js), w).
Proof.
  induction js as [|a js IH]; intros Hobj; [reflexivity|].
  simpl. unfold bind, deref, named at 1.
  destruct (Hobj a) as [j Hj]; [left|]. rewrite Hj.
  rewrite IH by (intros a' Ha'; apply Hobj; right; exact Ha').
  unfold ret. destruct (String.eqb (name j) name_); reflexivity.
Qed.

(** X14.  [jobs] returns the job object of every entry the scheduler lists,
    in the scheduler's order, and [get_jobs_by_name] returns those of them
    whose name is the one asked for, in the same order: none, one or
    several. *)
Theorem get_jobs_by_name_filters (name_ : string) (hs : list APSJob) (e' : E)
    (w : World E) :
  sched_get_jobs (scheduler (queue w)) = (Ok hs, e') ->
  (forall h, h ∈ hs -> is_Some (heap w !! func h)) ->
  fst (jobs w) = Ok (func <$> hs) /\
  fst (get_jobs_by_name name_ w)
    = Ok (List.filter (named w name_) (func <$> hs)).
Proof.
  intros Hget Hobj.
  unfold get_jobs_by_name, jobs, bind, ret.
  rewrite (engine_eq _ _ _ _ Hget). simpl. split; [reflexivity|].
  rewrite (with_name_filters name_ (_from_aps_job <$> hs)
             (set_scheduler e' w)); [reflexivity|].
  intros a Ha. apply list_elem_of_fmap in Ha as (h & -> & Hh).
  apply (Hobj h Hh).
Qed.

(** X15.  With a scheduler that runs once started and no longer runs once
    shut down, starting a started queue and stopping a stopped one change
    nothing: [start] after [start] and [stop] after [stop] return without
    calling the scheduler again. *)
Theorem start_stop_idempotent (wait wait' : bool) (w : World E) :
  (forall e e', sched_start e = (Ok tt, e') -> sched_running e' = true) ->
  (forall b e e', sched_shutdown b e = (Ok tt, e') ->
                  sched_running e' = false) ->
  (fst (start w) = Ok tt ->
   start (after start w) = (Ok tt, after start w)) /\
  (fst (stop wait w) = Ok tt ->
   stop wait' (after (stop wait) w) = (Ok tt, after (stop wait) w)).
Proof.
  intros Hstart Hstop. unfold after, start, stop. split.
  - destruct (sched_running (scheduler (queue w))) eqn:Hrun; simpl.
    + intros _. rewrite Hrun. reflexivity.
    + unfold engine.
      destruct (sched_start (scheduler (queue w))) as [r e'] eqn:Hs. simpl.
      intros ->. rewrite (Hstart _ _ Hs). reflexivity.
  - destruct (sched_running (scheduler (queue w))) eqn:Hrun; simpl.
    + unfold engine.
      destruct (sched_shutdown wait (scheduler (queue w))) as [r e'] eqn:Hs.
      simpl. intros ->. rewrite (Hstop _ _ _ Hs). reflexivity.
    + intros _. rewrite Hrun. reflexivity.
Qed.

(** X16.  [run_once] with [None] for [when], on a queue whose host is
    alive, raises the [AttributeError] of the missing [tzinfo] of [None],
    and the scheduler is not called. *)
Theorem run_once_without_time (f : Callback) (c : PyObj) (n : option string)
    (kw : option JSONDict) (ref : addr) (d : Dispatcher) (me : Job)
    (w : World E) :
  Job__init__ f c n None = Ok me ->
  _dispatcher (queue w) = Some ref ->
  hosts w !! ref = Some d ->
  fst (run_once f TNone c n kw w) =
    Raise (Exn AttributeError "'NoneType' object has no attribute 'tzinfo'") /\
  scheduler (queue (after (run_once f TNone c n kw) w)) = scheduler (queue w).
Proof.
  intros Hme Href Hd.
  destruct (run_once_steps f TNone c n kw w me Hme) as (Heq & Hq & _).
  unfold after at 1. rewrite Heq. simpl.
  unfold dispatcher. rewrite Href, Hd. simpl. split; reflexivity.
Qed.

End Coverage.

(** *** The further properties on the concrete world *)


Lemma run_adds_one_job_witness :
  Job__init__ returning "payload" None None
    = Ok (job_of returning "returning") /\
  run_outcome (job_of returning "returning") w_host
    (run_once returning (TNumber (PyInt 5)) "payload" None None w_host) /\
  Job__init__ nameless "payload" (Some "tick") None
    = Ok (job_of nameless "tick") /\
  run_outcome (job_of nameless "tick") w_host
    (run_custom nameless [] "payload" (Some "tick") w_host) /\
  run_custom nameless [] "payload" None w_host =
    (Raise (Exn AttributeError
              "'functools.partial' object has no attribute '__name__'"),
     w_host).
Proof.
  split; [reflexivity|].
  destruct (run_adds_one_job returning "payload" None None w_host)
    as [Hnamed _].
  destruct (Hnamed (job_of returning "returning") eq_refl)
    as (_ & Honce & _).
  split; [apply Honce|]. split; [reflexivity|].
  destruct (run_adds_one_job nameless "payload" (Some "tick") None w_host)
    as [Hticked _].
  destruct (Hticked (job_of nameless "tick") eq_refl)
    as (_ & _ & _ & _ & _ & Hcustom).
  split; [apply Hcustom|].
  destruct (run_adds_one_job nameless "payload" None None w_host)
    as [_ Hunnamed].
  destruct (Hunnamed _ eq_refl) as (_ & _ & _ & _ & _ & Hraise).
  apply Hraise.
Defined.

Lemma run_repeating_mixed_awareness_witness :
  fst (run_repeating returning (IntervalNumber (PyInt 10))
         (TDatetime naive_instant) (TNumber (PyInt 60)) "payload" None None
         w_host)
    = Raise (Exn TypeError
               "can't compare offset-naive and offset-aware datetimes").
Proof.
  edestruct (run_repeating_mixed_awareness returning
               (IntervalNumber (PyInt 10)) (TDatetime naive_instant)
               (TNumber (PyInt 60)) "payload" None None w_host
               (job_of returning "returning")) as [Hrun _];
    [reflexivity|reflexivity|reflexivity
    |left; split; [reflexivity|discriminate]|].
  rewrite Hrun. reflexivity.
Defined.

Lemma run_repeating_open_bound_witness :
  fst (run_repeating returning (IntervalNumber (PyInt 10)) TNone
         (TNumber (PyInt (-600))) "payload" None None w_host) = Ok 0%nat.
Proof.
  edestruct (run_repeating_open_bound returning (IntervalNumber (PyInt 10))
               TNone (TNumber (PyInt (-600))) "payload" None None 0%nat host
               w_host (job_of returning "returning")) as (_ & Hrun & _);
    [reflexivity|left; reflexivity|reflexivity|reflexivity
    |vm_compute; reflexivity|vm_compute; reflexivity|vm_compute; reflexivity|].
  exact Hrun.
Defined.

(** Ten past midnight without timezone is that of day 0, today in UTC;
    five past midnight in the zone 23 hours 50 minutes east is that of
    day 1, today there. *)
Lemma parse_time_of_day_today_witness :
  (valid_time ten_past /\
   exists res,
     fst (_parse_time_input (TTime ten_past) false w_host) = Ok (Some res) /\
     date res = 0 /\ timeofday res = 600 * SECOND) /\
  (valid_time five_past_east /\
   exists res,
     fst (_parse_time_input (TTime five_past_east) false w_host)
       = Ok (Some res) /\
     date res = 1 /\ timeofday res = 300 * SECOND /\
     dt_tzinfo res = Some east).
Proof.
  assert (Hnaive : valid_time ten_past)
    by (unfold valid_time, SECOND; simpl; lia).
  assert (Haware : valid_time five_past_east)
    by (unfold valid_time, SECOND; simpl; lia).
  split.
  - split; [exact Hnaive|].
    destruct (parse_time_of_day_today ten_past w_host Hnaive)
      as (res & Hres & _ & Hdate & Htod & _).
    exists res. rewrite Hres. split; [reflexivity|].
    split; [exact Hdate|exact Htod].
  - split; [exact Haware|].
    destruct (parse_time_of_day_today five_past_east w_host Haware)
      as (res & Hres & _ & Hdate & Htod & Htz).
    exists res. rewrite Hres. split; [reflexivity|].
    split; [exact Hdate|]. split; [exact Htod|exact Htz].
Defined.

Lemma job_without_handle_witness :
  job (job_of returning "returning") = None /\
  fst (schedule_removal 0%nat w_jobs)
    = Raise (Exn AttributeError "'NoneType' object has no attribute 'remove'")
  /\
  fst (next_t 0%nat w_jobs)
    = Raise (Exn AttributeError
               "Neither 'telegram.ext.Job' nor 'apscheduler.job.Job' has attribute 'next_t'").
Proof.
  split; [reflexivity|].
  destruct (job_without_handle 0%nat _ w_jobs eq_refl eq_refl)
    as (Hrm & _ & _ & Hnext & _).
  rewrite Hrm, Hnext. split; reflexivity.
Defined.

Lemma flag_setters_frame_witness :
  heap (after (schedule_removal 0%nat) w_two) !! 1%nat = heap w_two !! 1%nat /\
  heap (after (set_enabled 0%nat true) w_two) !! 1%nat = heap w_two !! 1%nat.
Proof.
  destruct (flag_setters_frame 0%nat _ true w_two eq_refl) as [Hother _].
  apply (Hother 1%nat). discriminate.
Defined.

Lemma run_reports_context_failure_witness :
  exists evs,
    log (after (run 0%nat no_context_host) w_jobs) = log w_jobs ++ evs /\
    callback_calls evs = [] /\
    reports evs = [(Exn TypeError "no context", 0%nat)] /\
    hook_calls evs = 1%nat.
Proof.
  apply (run_reports_context_failure 0%nat _ no_context_host w_jobs
           (Exn TypeError "no context") [] eq_refl eq_refl eq_refl).
Defined.

Lemma run_raises_what_the_hook_raises_witness :
  fst (run 0%nat no_persistence_host w_jobs)
    = Raise (Exn RuntimeError "disk full").
Proof.
  apply (run_raises_what_the_hook_raises 0%nat no_persistence_host w_jobs).
  intros u. reflexivity.
Defined.

(** A bot whose defaults carry a timezone moves the scheduler to it; one
    whose defaults carry none moves it to UTC; one without defaults leaves
    the scheduler where it is. *)
Lemma set_dispatcher_then_dispatcher_witness :
  let w := set_hosts {[ 0%nat := host_east; 1%nat := host_defaults;
                        2%nat := host ]} w0 in
  let w_east := after (set_dispatcher 0%nat) w in
  sched_timezone (scheduler (queue w)) = pytz_utc /\
  fst (dispatcher w_east) = Ok host_east /\
  sched_timezone (scheduler (queue w_east)) = east /\
  sched_timezone (scheduler (queue (after (set_dispatcher 1%nat) w_east)))
    = pytz_utc /\
  sched_timezone (scheduler (queue (after (set_dispatcher 2%nat) w_east)))
    = east.
Proof.
  intros w w_east. split; [reflexivity|].
  destruct (set_dispatcher_then_dispatcher 0%nat host_east w)
    as (Hget & _ & _ & Heast); [reflexivity|].
  destruct (set_dispatcher_then_dispatcher 1%nat host_defaults w_east)
    as (_ & _ & _ & Hutc); [reflexivity|].
  destruct (set_dispatcher_then_dispatcher 2%nat host w_east)
    as (_ & _ & _ & _ & Hsame); [reflexivity|].
  split; [subst w_east; rewrite Hget; reflexivity|].
  split; [exact (f_equal (fun p => sched_timezone (snd p)) Heast)|].
  split; [exact (f_equal (fun p => sched_timezone (snd p)) Hutc)|].
  rewrite Hsame. exact (f_equal (fun p => sched_timezone (snd p)) Heast).
Defined.

Lemma job_eq_equivalence_witness :
  Job__eq__ 0%nat (VJob 1%nat) w_two = Job__eq__ 1%nat (VJob 0%nat) w_two /\
  Job__eq__ 0%nat (VJob 0%nat) w_two = (Ok true, w_two).
Proof.
  destruct (job_eq_equivalence 0%nat 1%nat 0%nat _ _ _ w_two
              eq_refl eq_refl eq_refl) as (Hsym & _ & Hrefl & _).
  split; [exact Hsym|]. apply Hrefl. discriminate.
Defined.

Lemma get_jobs_by_name_filters_witness :
  fst (jobs w_two) = Ok [0%nat; 1%nat] /\
  fst (get_jobs_by_name "returning" w_two) = Ok [0%nat; 1%nat] /\
  fst (get_jobs_by_name "other" w_two) = Ok [].
Proof.
  assert (Hobj : forall h : APSJob,
            h ∈ e_handle <$> t_entries (scheduler (queue w_two)) ->
            is_Some (heap w_two !! func h)).
  { intros h Hh. vm_compute in Hh.
    repeat (apply elem_of_cons in Hh as [-> | Hh]; [eexists; reflexivity|]).
    apply elem_of_nil in Hh. destruct Hh. }
  destruct (get_jobs_by_name_filters "returning"
              (e_handle <$> t_entries (scheduler (queue w_two)))
              (scheduler (queue w_two)) w_two) as [Hjobs Hsame];
    [reflexivity|exact Hobj|].
  destruct (get_jobs_by_name_filters "other"
              (e_handle <$> t_entries (scheduler (queue w_two)))
              (scheduler (queue w_two)) w_two) as [_ Hother];
    [reflexivity|exact Hobj|].
  rewrite Hjobs, Hsame, Hother. repeat split.
Defined.

Lemma start_stop_idempotent_witness :
  fst (start w_host) = Ok tt /\
  start (after start w_host) = (Ok tt, after start w_host).
Proof.
  split; [reflexivity|].
  apply (start_stop_idempotent true true w_host).
  - intros e e' [= <-]. reflexivity.
  - intros b e e' [= <-]. reflexivity.
  - reflexivity.
Defined.

Lemma run_once_without_time_witness :
  _dispatcher (queue w_host) = Some 0%nat /\
  hosts w_host !! 0%nat = Some host /\
  fst (run_once returning TNone "payload" None None w_host)
    = Raise (Exn AttributeError "'NoneType' object has no attribute 'tzinfo'").
Proof.
  split; [reflexivity|]. split; [reflexivity|].
  apply (run_once_without_time returning "payload" None None 0%nat host
           (job_of returning "returning") w_host eq_refl eq_refl eq_refl).
Defined.
